(** * Product Store Service: the request handlers of [service/routes.py]

    A shallow embedding of the Flask handlers of the product catalogue and
    the properties of their HTTP contract.  The handlers are translated from
    [service/routes.py]; the entity model and the persistence gateway of
    [service/models.py], which the handlers call, are modelled from the
    specification and are marked as such. *)

From stdpp Require Import base option list strings gmap pretty.
From Stdlib Require Import ZArith Ascii String Lia.

Set Warnings "-register-all,-clear-no-such-hyp".

Local Open Scope Z_scope.
Local Open Scope string_scope.

(** ** Text: [str.upper] and [str.lower]

    A Python [str] is Unicode text; it is modelled by its UTF-8 bytes.  The
    handlers use the result of a case conversion for one thing only, to
    compare it with a name written in ASCII (a member of the enumeration, an
    availability token).  [upper] and [lower] therefore return what Python
    returns whenever that is ASCII text: they convert the ASCII letters and
    the characters outside ASCII whose converted form is made of ASCII
    letters (upper case: U+00DF, U+0131, U+017F and the ligatures U+FB00 to
    U+FB06; lower case: the Kelvin sign U+212A).  For every other character
    outside ASCII Python's conversion contains a character outside ASCII;
    here such a character is left as it is, so that the result equals an
    ASCII name exactly when Python's does. *)

Definition is_lower_letter (c : ascii) : bool :=
  let n := nat_of_ascii c in (97 <=? n)%nat && (n <=? 122)%nat.

Definition is_upper_letter (c : ascii) : bool :=
  let n := nat_of_ascii c in (65 <=? n)%nat && (n <=? 90)%nat.

Definition ascii_upper (c : ascii) : ascii :=
  if is_lower_letter c then ascii_of_nat (nat_of_ascii c - 32) else c.

Definition ascii_lower (c : ascii) : ascii :=
  if is_upper_letter c then ascii_of_nat (nat_of_ascii c + 32) else c.

(** The upper case of the two-byte characters that have an ASCII one:
    U+00DF (sharp s), U+0131 (dotless i), U+017F (long s). *)
Definition utf8_upper_2 (c1 c2 : ascii) : option string :=
  if decide (c1 = "195"%char ∧ c2 = "159"%char) then Some "SS"
  else if decide (c1 = "196"%char ∧ c2 = "177"%char) then Some "I"
  else if decide (c1 = "197"%char ∧ c2 = "191"%char) then Some "S"
  else None.

(** The upper case of the three-byte characters that have an ASCII one: the
    ligatures U+FB00 to U+FB06 (ff, fi, fl, ffi, ffl, long s t, st). *)
Definition utf8_upper_3 (c1 c2 c3 : ascii) : option string :=
  if decide (c1 = "239"%char ∧ c2 = "172"%char) then
    if decide (c3 = "128"%char) then Some "FF"
    else if decide (c3 = "129"%char) then Some "FI"
    else if decide (c3 = "130"%char) then Some "FL"
    else if decide (c3 = "131"%char) then Some "FFI"
    else if decide (c3 = "132"%char) then Some "FFL"
    else if decide (c3 = "133"%char) then Some "ST"
    else if decide (c3 = "134"%char) then Some "ST"
    else None
  else None.

(** The lower case of the one character outside ASCII that has an ASCII
    one: the Kelvin sign U+212A. *)
Definition utf8_lower_3 (c1 c2 c3 : ascii) : option string :=
  if decide (c1 = "226"%char ∧ c2 = "132"%char ∧ c3 = "170"%char)
  then Some "k" else None.

Fixpoint upper (s : string) : string :=
  match s with
  | EmptyString => EmptyString
  | String c1 s1 =>
      match s1 with
      | EmptyString => String (ascii_upper c1) EmptyString
      | String c2 s2 =>
          match utf8_upper_2 c1 c2 with
          | Some converted => converted ++ upper s2
          | None =>
              match s2 with
              | EmptyString => String (ascii_upper c1) (upper s1)
              | String c3 s3 =>
                  match utf8_upper_3 c1 c2 c3 with
                  | Some converted => converted ++ upper s3
                  | None => String (ascii_upper c1) (upper s1)
                  end
              end
          end
      end
  end.

Fixpoint lower (s : string) : string :=
  match s with
  | EmptyString => EmptyString
  | String c1 s1 =>
      match s1 with
      | String c2 (String c3 s3) =>
          match utf8_lower_3 c1 c2 c3 with
          | Some converted => converted ++ lower s3
          | None => String (ascii_lower c1) (lower s1)
          end
      | _ => String (ascii_lower c1) (lower s1)
      end
  end.

(** Python truthiness of a [str]: the empty string is falsy. *)
Definition str_truthy (s : string) : bool :=
  match s with EmptyString => false | _ => true end.

(** ** JSON values, as [request.get_json()] returns them

    A JSON number is an [int] or a [float]; a float is kept as its literal
    text, no arithmetic is ever done on it here.  A JSON object is a Python
    [dict] with text keys. *)

Inductive json : Type :=
  | JNull
  | JBool (b : bool)
  | JInt (n : Z)
  | JFloat (literal : string)
  | JStr (s : string)
  | JArr (items : list json)
  | JObj (fields : gmap string json).

(** [data[key]] on a value that may or may not be a mapping. *)
Definition json_fields (data : json) : option (gmap string json) :=
  match data with JObj m => Some m | _ => None end.

(** ** HTTP status codes ([service.common.status]) *)

Definition HTTP_200_OK : Z := 200.
Definition HTTP_201_CREATED : Z := 201.
Definition HTTP_204_NO_CONTENT : Z := 204.
Definition HTTP_400_BAD_REQUEST : Z := 400.
Definition HTTP_404_NOT_FOUND : Z := 404.
Definition HTTP_415_UNSUPPORTED_MEDIA_TYPE : Z := 415.
Definition HTTP_500_INTERNAL_SERVER_ERROR : Z := 500.

(** ** Exceptions and the outcome of a handler

    The exception classes the handlers name, and the validation error of the
    entity model.  [exn_message] is the [.message] attribute that
    [update_product] reads from a caught exception: [None] when the object
    carries no such attribute. *)

Inductive exn_class : Type :=
  | AttributeError
  | KeyError
  | TypeError
  | DataValidationError.

#[global] Instance exn_class_eq_dec : EqDecision exn_class.
Proof. solve_decision. Defined.

Record exn : Type := mk_exn {
  exn_cls : exn_class;
  exn_text : string;
  exn_message : option string;
}.

(** A view function returns a response, leaves through [abort(code, text)],
    or lets an exception escape. *)
Inductive result (A : Type) : Type :=
  | Ok (a : A)
  | Abort (code : Z) (description : string)
  | Raise (e : exn).

Arguments Ok {A} a.
Arguments Abort {A} code description.
Arguments Raise {A} e.

#[global] Instance result_ret : MRet result := fun A a => Ok a.
#[global] Instance result_bind : MBind result := fun A B k m =>
  match m with
  | Ok a => k a
  | Abort code description => Abort code description
  | Raise e => Raise e
  end.

Inductive Body : Type :=
  | BJson (j : json)
  | BText (s : string).

Record Response : Type := mk_response {
  status : Z;
  body : Body;
  headers : list (string * string);
}.

(** Modelled from the spec: the application-level error handlers
    ([service/common/error_handlers.py] is not part of the sources).  An
    [abort] becomes a response with its code; a validation error "always
    surfaces as HTTP 400"; any other escaping exception is a server error. *)
Definition status_code (r : result Response) : Z :=
  match r with
  | Ok resp => status resp
  | Abort code _ => code
  | Raise e =>
      if decide (exn_cls e = DataValidationError)
      then HTTP_400_BAD_REQUEST
      else HTTP_500_INTERNAL_SERVER_ERROR
  end.

(** ** The category enumeration *)

(** Modelled from the spec: the members of [Category] ([service/models.py]
    is not part of the sources): "UNKNOWN, CLOTHS, FOOD, HOUSEWARES,
    AUTOMOTIVE, TOOLS", a closed set of named members. *)
Inductive Category : Type :=
  | UNKNOWN
  | CLOTHS
  | FOOD
  | HOUSEWARES
  | AUTOMOTIVE
  | TOOLS.

#[global] Instance Category_eq_dec : EqDecision Category.
Proof. solve_decision. Defined.

Definition Category_members : list Category :=
  [UNKNOWN; CLOTHS; FOOD; HOUSEWARES; AUTOMOTIVE; TOOLS].

(** [member.name] *)
Definition Category_name (c : Category) : string :=
  match c with
  | UNKNOWN => "UNKNOWN"
  | CLOTHS => "CLOTHS"
  | FOOD => "FOOD"
  | HOUSEWARES => "HOUSEWARES"
  | AUTOMOTIVE => "AUTOMOTIVE"
  | TOOLS => "TOOLS"
  end.

(** [getattr(Category, token)]: the member of that name, [None] standing for
    the [AttributeError] of a name that is no member. *)
Definition Category_getattr (token : string) : option Category :=
  snd <$> list_find (fun c => Category_name c = token) Category_members.

(** ** Fixed-precision prices

    [decimal.Decimal] belongs to the Python library, not to this service:
    its constructor and its text form are parameters of the development. *)
Class DecimalModule : Type := {
  Decimal : Type;
  (** [Decimal(value)]; [None] when the constructor rejects the value *)
  Decimal_new : json -> option Decimal;
  (** [str(d)] *)
  Decimal_str : Decimal -> string;
}.

Section ProductService.

Context `{DM : DecimalModule}.

(** ** The Product entity *)

Record Product : Type := mk_product {
  id : option Z;
  name : string;
  description : string;
  price : Decimal;
  available : bool;
  category : Category;
}.

(** Modelled from the spec: [Product.serialize] ([service/models.py] is not
    part of the sources): "a mapping with keys id, name, description, price
    (as decimal string), available, category (as enumeration member name)". *)
Definition Product_serialize (p : Product) : json :=
  JObj (list_to_map
    [ ("id", from_option JInt JNull (id p));
      ("name", JStr (name p));
      ("description", JStr (description p));
      ("price", JStr (Decimal_str (price p)));
      ("available", JBool (available p));
      ("category", JStr (Category_name (category p))) ]).

Definition validation_error (text : string) : exn :=
  {| exn_cls := DataValidationError; exn_text := text; exn_message := None |}.

(** [data[key]] for a required field: a missing key is a "missing key" error
    identifying the key. *)
Definition required (fields : gmap string json) (key : string) : result json :=
  match fields !! key with
  | Some v => Ok v
  | None => Raise (validation_error ("Invalid product: missing " ++ key))
  end.

Definition as_text (key : string) (v : json) : result string :=
  match v with
  | JStr s => Ok s
  | _ => Raise (validation_error ("Invalid type for text [" ++ key ++ "]"))
  end.

Definition as_boolean (key : string) (v : json) : result bool :=
  match v with
  | JBool b => Ok b
  | _ => Raise (validation_error ("Invalid type for boolean [" ++ key ++ "]"))
  end.

Definition as_decimal (key : string) (v : json) : result Decimal :=
  match Decimal_new v with
  | Some d => Ok d
  | None => Raise (validation_error ("Invalid decimal [" ++ key ++ "]"))
  end.

Definition as_category (v : json) : result Category :=
  match v with
  | JStr s =>
      match Category_getattr s with
      | Some c => Ok c
      | None => Raise (validation_error ("Invalid attribute: " ++ s))
      end
  | _ => Raise (validation_error "Invalid type for category")
  end.

(** Modelled from the spec: [Product.deserialize] ([service/models.py] is not
    part of the sources).  Every field "must be present" and of its type
    ([name], [description] text, [available] boolean, [price] parsed into the
    decimal representation, [category] the name of a member, matched
    exactly); a failure is a ValidationError and sets no field; the entity's
    [id] is never taken from the payload.  A payload that is no mapping has
    the wrong type, and a price the decimal constructor rejects is a
    malformed field like the others.  [self_id] is the [id] of the entity
    deserialized onto. *)
Definition deserialize_onto (self_id : option Z) (data : json) : result Product :=
  match json_fields data with
  | None =>
      Raise (validation_error
               "Invalid product: body of request contained bad or no data")
  | Some fields =>
      name' ← required fields "name" ≫= as_text "name";
      description' ← required fields "description" ≫= as_text "description";
      available' ← required fields "available" ≫= as_boolean "available";
      price' ← required fields "price" ≫= as_decimal "price";
      category' ← required fields "category" ≫= as_category;
      Ok {| id := self_id; name := name'; description := description';
            price := price'; available := available'; category := category' |}
  end.

(** [self.deserialize(data)] *)
Definition Product_deserialize (self : Product) (data : json) : result Product :=
  deserialize_onto (id self) data.

(** [Product().deserialize(data)]: a fresh entity has no [id] yet. *)
Definition Product_new_deserialize (data : json) : result Product :=
  deserialize_onto None data.

(** ** The persistence gateway *)

(** Modelled from the spec: the product table ([service/models.py] is not
    part of the sources): its rows in store order, and the next value of the
    auto-increment primary key. *)
Record Store : Type := mk_store {
  rows : list Product;
  next_id : Z;
}.

(** Modelled from the spec: [Product.all()], "every row as entities, in
    store-native order". *)
Definition Product_all (db : Store) : list Product := rows db.

(** Modelled from the spec: [Product.find(id)], "the entity matching [id],
    or an explicit not-found sentinel". *)
Definition Product_find (db : Store) (product_id : Z) : option Product :=
  snd <$> list_find (fun p => id p = Some product_id) (rows db).

(** Modelled from the spec: [product.create()], "assigns a new unique [id],
    persists all fields, commits".  Returns the assigned id, the entity as
    persisted, and the store. *)
Definition Product_create (p : Product) (db : Store) : Z * Product * Store :=
  let new_id := next_id db in
  let p' := {| id := Some new_id; name := name p; description := description p;
               price := price p; available := available p;
               category := category p |} in
  (new_id, p', {| rows := rows db ++ [p']; next_id := new_id + 1 |}).

(** Modelled from the spec: [product.update()], "replaces all fields for the
    matching row; commits". *)
Definition Product_update (p : Product) (db : Store) : Store :=
  {| rows := (fun q => if decide (id q = id p) then p else q) <$> rows db;
     next_id := next_id db |}.

(** Modelled from the spec: [product.delete()], "removes the row matching
    [entity.id]". *)
Definition Product_delete (p : Product) (db : Store) : Store :=
  {| rows := filter (fun q => id q ≠ id p) (rows db);
     next_id := next_id db |}.

(** The table is well formed when every row has an id, the ids are pairwise
    distinct, and the key sequence is ahead of all of them. *)
Definition store_wf (db : Store) : Prop :=
  NoDup (id <$> rows db) ∧
  ∀ p, p ∈ rows db → ∃ n, id p = Some n ∧ n < next_id db.

(** ** Requests

    What the handlers read from [flask.request]: the [Content-Type] header
    when there is one, the query arguments in the order of the query string,
    the body parsed as JSON ([None] when it does not parse), and the host
    part that external URLs are built on. *)
Record Request : Type := mk_request {
  content_type_header : option string;
  args : list (string * string);
  json_body : option json;
  host_url : string;
}.

(** [request.args.get(key)]: the first value given for the key. *)
Fixpoint args_get (key : string) (qs : list (string * string)) : option string :=
  match qs with
  | [] => None
  | (k, v) :: rest => if decide (k = key) then Some v else args_get key rest
  end.

(** [request.get_json()]: a body that is not JSON is a bad request. *)
Definition get_json (req : Request) : result json :=
  match json_body req with
  | Some data => Ok data
  | None => Abort HTTP_400_BAD_REQUEST "Failed to decode JSON object"
  end.

(** [url_for("get_product", product_id=..., _external=True)] *)
Definition url_for_get_product (req : Request) (product_id : Z) : string :=
  host_url req ++ "/products/" ++ pretty product_id.

(** ** Utility functions *)

Definition check_content_type (req : Request) (content_type : string) : result unit :=
  match content_type_header req with
  | None =>
      Abort HTTP_415_UNSUPPORTED_MEDIA_TYPE
            ("Content-Type must be " ++ content_type)
  | Some given =>
      if decide (given = content_type) then Ok ()
      else Abort HTTP_415_UNSUPPORTED_MEDIA_TYPE
                 ("Content-Type must be " ++ content_type)
  end.

(** ** Create a new product *)

Definition create_products (db : Store) (req : Request) : result Response * Store :=
  match (check_content_type req "application/json" ≫= fun _ =>
         data ← get_json req;
         Product_new_deserialize data) with
  | Ok product =>
      let '(new_id, product, db') := Product_create product db in
      let message := Product_serialize product in
      let location_url := url_for_get_product req new_id in
      (Ok {| status := HTTP_201_CREATED; body := BJson message;
             headers := [("Location", location_url)] |}, db')
  | Abort code description => (Abort code description, db)
  | Raise e => (Raise e, db)
  end.

(** ** List all products *)

Definition truthy_tokens : list string := ["true"; "t"; "1"; "yes"].
Definition falsy_tokens : list string := ["false"; "f"; "0"; "no"].

(** The [if name:] block. *)
Definition filter_by_name (name_arg : option string) (products : list Product) : list Product :=
  match name_arg with
  | Some n =>
      if str_truthy n then filter (fun p => name p = n) products else products
  | None => products
  end.

(** The [if category_str:] block. *)
Definition filter_by_category (category_str : option string) (products : list Product) : result (list Product) :=
  match category_str with
  | Some token =>
      if str_truthy token then
        match Category_getattr (upper token) with
        | Some c => Ok (filter (fun p => category p = c) products)
        | None =>
            Abort HTTP_400_BAD_REQUEST ("Invalid category: " ++ token)
        end
      else Ok products
  | None => Ok products
  end.

(** The [if available_str:] block. *)
Definition filter_by_available (available_str : option string) (products : list Product) : result (list Product) :=
  match available_str with
  | Some token =>
      if str_truthy token then
        if bool_decide (lower token ∈ truthy_tokens) then
          Ok (filter (fun p => available p = true) products)
        else if bool_decide (lower token ∈ falsy_tokens) then
          Ok (filter (fun p => available p = false) products)
        else
          Abort HTTP_400_BAD_REQUEST
                ("Invalid value for 'available': " ++ token)
      else Ok products
  | None => Ok products
  end.

(** [jsonify([p.serialize() for p in products]), 200] *)
Definition listing_response (products : list Product) : Response :=
  let product_list := Product_serialize <$> products in
  {| status := HTTP_200_OK; body := BJson (JArr product_list); headers := [] |}.

Definition get_products (db : Store) (req : Request) : result Response :=
  let name_arg := args_get "name" (args req) in
  let category_str := args_get "category" (args req) in
  let available_str := args_get "available" (args req) in
  let products := Product_all db in
  let products := filter_by_name name_arg products in
  products ← filter_by_category category_str products;
  products ← filter_by_available available_str products;
  Ok (listing_response products).

(** ** Read a product *)

Definition not_found (product_id : Z) : result Response :=
  Abort HTTP_404_NOT_FOUND ("Product not found for id: " ++ pretty product_id).

Definition get_product (db : Store) (product_id : Z) : result Response :=
  match Product_find db product_id with
  | None => not_found product_id
  | Some found_product =>
      let message := Product_serialize found_product in
      Ok {| status := HTTP_200_OK; body := BJson message; headers := [] |}
  end.

(** ** Update a product *)

(** [abort(400, error.message)] in an [except] clause: reading [.message]
    from an exception object that has none raises [AttributeError] in the
    clause itself. *)
Definition abort_with_message (error : exn) : result Product :=
  match exn_message error with
  | Some text => Abort HTTP_400_BAD_REQUEST text
  | None =>
      Raise {| exn_cls := AttributeError;
               exn_text := "object has no attribute 'message'";
               exn_message := None |}
  end.

(** The [try: found_product.deserialize(data)] block with its three
    [except] clauses; any other exception passes through. *)
Definition try_deserialize (found_product : Product) (data : json) : result Product :=
  match Product_deserialize found_product data with
  | Raise error =>
      match exn_cls error with
      | AttributeError => abort_with_message error
      | KeyError => abort_with_message error
      | TypeError => abort_with_message error
      | DataValidationError => Raise error
      end
  | outcome => outcome
  end.

Definition update_product (db : Store) (req : Request) (product_id : Z) : result Response * Store :=
  match Product_find db product_id with
  | None => (not_found product_id, db)
  | Some found_product =>
      match (check_content_type req "application/json" ≫= fun _ =>
             data ← get_json req;
             try_deserialize found_product data) with
      | Ok found_product =>
          let db' := Product_update found_product db in
          let message := Product_serialize found_product in
          (Ok {| status := HTTP_200_OK; body := BJson message;
                 headers := [] |}, db')
      | Abort code description => (Abort code description, db)
      | Raise e => (Raise e, db)
      end
  end.

(** ** Delete a product *)

Definition delete_product (db : Store) (product_id : Z) : result Response * Store :=
  match Product_find db product_id with
  | None => (not_found product_id, db)
  | Some found_product =>
      let db' := Product_delete found_product db in
      (Ok {| status := HTTP_204_NO_CONTENT; body := BText EmptyString;
             headers := [] |}, db')
  end.

(** ** Vocabulary of the contract

    The notions the properties below are stated with. *)

(** A query parameter counts as supplied when it is present with a non-empty
    value. *)
Definition supplied (arg : option string) : option string :=
  match arg with
  | Some token => if str_truthy token then Some token else None
  | None => None
  end.

(** The boolean an availability token stands for, if any. *)
Definition available_of_token (token : string) : option bool :=
  if bool_decide (lower token ∈ truthy_tokens) then Some true
  else if bool_decide (lower token ∈ falsy_tokens) then Some false
  else None.

Definition matches_name (arg : option string) (p : Product) : Prop :=
  match supplied arg with Some n => name p = n | None => True end.

Definition matches_category (arg : option string) (p : Product) : Prop :=
  match supplied arg with
  | Some token => Category_getattr (upper token) = Some (category p)
  | None => True
  end.

Definition matches_available (arg : option string) (p : Product) : Prop :=
  match supplied arg with
  | Some token => available_of_token token = Some (available p)
  | None => True
  end.

(** A product satisfies every criterion the request supplies. *)
Definition matches (req : Request) (p : Product) : Prop :=
  matches_name (args_get "name" (args req)) p ∧
  matches_category (args_get "category" (args req)) p ∧
  matches_available (args_get "available" (args req)) p.

#[global] Instance matches_name_dec arg p : Decision (matches_name arg p).
Proof. unfold matches_name. destruct (supplied arg); apply _. Defined.

#[global] Instance matches_category_dec arg p : Decision (matches_category arg p).
Proof. unfold matches_category. destruct (supplied arg); apply _. Defined.

#[global] Instance matches_available_dec arg p : Decision (matches_available arg p).
Proof. unfold matches_available. destruct (supplied arg); apply _. Defined.

#[global] Instance matches_dec req p : Decision (matches req p).
Proof. unfold matches. apply _. Defined.

(** The supplied category names a member; the supplied availability token is
    a recognised one. *)
Definition category_valid (req : Request) : Prop :=
  ∀ token, supplied (args_get "category" (args req)) = Some token →
           ∃ c, Category_name c = upper token.

Definition available_valid (req : Request) : Prop :=
  ∀ token, supplied (args_get "available" (args req)) = Some token →
           lower token ∈ (truthy_tokens ++ falsy_tokens)%list.

(** The query string without any occurrence of a parameter. *)
Definition args_remove (key : string) (qs : list (string * string)) : list (string * string) :=
  filter (fun kv => kv.1 ≠ key) qs.

Definition with_args (req : Request) (qs : list (string * string)) : Request :=
  {| content_type_header := content_type_header req; args := qs;
     json_body := json_body req; host_url := host_url req |}.

Definition required_fields : list string :=
  ["name"; "description"; "price"; "available"; "category"].

(** The payload is a mapping that lacks one of the required keys. *)
Definition omits_required_field (data : json) : Prop :=
  ∃ fields key, data = JObj fields ∧ key ∈ required_fields ∧ fields !! key = None.

Definition is_text (v : json) : Prop := ∃ s, v = JStr s.
Definition is_boolean (v : json) : Prop := ∃ b, v = JBool b.

(** The payload is a mapping in which a field is present with a value of the
    wrong type. *)
Definition has_wrong_typed_field (data : json) : Prop :=
  ∃ fields key v, data = JObj fields ∧ fields !! key = Some v ∧
    ((key = "name" ∧ ¬ is_text v) ∨
     (key = "description" ∧ ¬ is_text v) ∨
     (key = "available" ∧ ¬ is_boolean v) ∨
     (key = "price" ∧ ¬ is_text v ∧ Decimal_new v = None) ∨
     (key = "category" ∧ ¬ is_text v)).

(** A full valid payload, with the values it carries. *)
Definition full_valid_payload (data : json) (nm ds : string) (pr : Decimal) (av : bool) (cat : Category) : Prop :=
  ∃ fields price_value, data = JObj fields ∧
    fields !! "name" = Some (JStr nm) ∧
    fields !! "description" = Some (JStr ds) ∧
    fields !! "price" = Some price_value ∧ Decimal_new price_value = Some pr ∧
    fields !! "available" = Some (JBool av) ∧
    fields !! "category" = Some (JStr (Category_name cat)).

End ProductService.

(** ** A reference instance

    Prices kept as their literal text: enough to run the handlers on
    concrete requests. *)

#[global] Instance text_decimal : DecimalModule := {|
  Decimal := string;
  Decimal_new v := match v with JStr s => Some s | _ => None end;
  Decimal_str d := d;
|}.

Definition fedora : Product :=
  {| id := Some 1; name := "Fedora"; description := "A red hat";
     price := "12.50"; available := true; category := CLOTHS |}.

Definition hammer : Product :=
  {| id := Some 2; name := "Hammer"; description := "A claw hammer";
     price := "9.99"; available := false; category := TOOLS |}.

Definition trilby (new_id : Z) : Product :=
  {| id := Some new_id; name := "Trilby"; description := "A narrow brim";
     price := "20.00"; available := false; category := CLOTHS |}.

Definition sample_db : Store := {| rows := [fedora; hammer]; next_id := 3 |}.

Definition sample_payload : json :=
  JObj (list_to_map
    [ ("id", JInt 999);
      ("name", JStr "Trilby"); ("description", JStr "A narrow brim");
      ("price", JStr "20.00"); ("available", JBool false);
      ("category", JStr "CLOTHS") ]).

Definition payload_without_name : json :=
  JObj (list_to_map
    [ ("description", JStr "A narrow brim");
      ("price", JStr "20.00"); ("available", JBool false);
      ("category", JStr "CLOTHS") ]).

Definition json_request (data : json) : Request :=
  {| content_type_header := Some "application/json"; args := [];
     json_body := Some data; host_url := "http://localhost" |}.

Definition query_request (qs : list (string * string)) : Request :=
  {| content_type_header := None; args := qs;
     json_body := None; host_url := "http://localhost" |}.

(** ** Further vocabulary and the helpers of the test suite *)

Section TestSupport.

Context `{DM : DecimalModule}.

(** The three [except] clauses of [update_product], as a function of the
    outcome of the call they guard. *)
Definition except_clauses (outcome : result Product) : result Product :=
  match outcome with
  | Raise error =>
      match exn_cls error with
      | AttributeError => abort_with_message error
      | KeyError => abort_with_message error
      | TypeError => abort_with_message error
      | DataValidationError => Raise error
      end
  | _ => outcome
  end.

(** [product.id = value] *)
Definition with_id (i : option Z) (p : Product) : Product :=
  {| id := i; name := name p; description := description p;
     price := price p; available := available p; category := category p |}.

(** The text form of a price reads back as the price. *)
Definition decimal_round_trip : Prop :=
  ∀ d : Decimal, Decimal_new (JStr (Decimal_str d)) = Some d.

(** Two tokens that differ in letter case only. *)
Definition same_upper (s t : string) : Prop := upper s = upper t.
Definition same_lower (s t : string) : Prop := lower s = lower t.

(** The three parameters [get_products] reads. *)
Definition filter_keys : list string := ["name"; "category"; "available"].

(** Two requests that give the same first value to each of them. *)
Definition same_criteria (req req' : Request) : Prop :=
  ∀ key, key ∈ filter_keys → args_get key (args req) = args_get key (args req').

(** [response.get_json()] in the test client. *)
Definition response_json (resp : Response) : option json :=
  match body resp with
  | BJson j => Some j
  | BText _ => None
  end.

(** [new_product["id"]] as the value of an [id] attribute. *)
Definition id_of_json (v : json) : option (option Z) :=
  match v with
  | JInt n => Some (Some n)
  | JNull => Some None
  | _ => None
  end.

(** [self.client.post(BASE_URL, json=payload)] *)
Definition client_post (db : Store) (payload : json) : result Response * Store :=
  create_products db (json_request payload).

(** [TestProductRoutes._create_products]: posts the serialization of each
    product the factory made, asserts the 201, and gives each product the id
    of the response.  [None] is a failed assertion or a failed lookup. *)
Fixpoint _create_products (db : Store) (factory : list Product) : option (list Product * Store) :=
  match factory with
  | [] => Some ([], db)
  | test_product :: rest =>
      let '(response, db) := client_post db (Product_serialize test_product) in
      if decide (status_code response = HTTP_201_CREATED) then
        match response with
        | Ok resp =>
            new_product ← response_json resp;
            fields ← json_fields new_product;
            new_id ← fields !! "id" ≫= id_of_json;
            '(products, db) ← _create_products db rest;
            Some (with_id new_id test_product :: products, db)
        | _ => None
        end
      else None
  end.

(** [TestProductRoutes.get_product_count]: the length of the listing, after
    the assertion on the 200. *)
Definition get_product_count (db : Store) : option nat :=
  let response := get_products db (query_request []) in
  if decide (status_code response = HTTP_200_OK) then
    match response with
    | Ok resp =>
        match response_json resp with
        | Some (JArr data) => Some (List.length data)
        | _ => None
        end
    | _ => None
    end
  else None.

End TestSupport.

(** * Properties *)

Section ProductServiceFacts.

Context `{DM : DecimalModule}.

Implicit Types (db : Store) (req : Request) (p q : Product).

(** ** Sequencing *)

Lemma bind_Ok {A B} (a : A) (k : A → result B) : (Ok a ≫= k) = k a.
Proof. done. Qed.

Lemma bind_Abort {A B} (code : Z) (text : string) (k : A → result B) :
  (Abort code text ≫= k) = Abort code text.
Proof. done. Qed.

(** ** Text and tokens *)

Lemma str_truthy_true (s : string) : str_truthy s = true ↔ s ≠ EmptyString.
Proof. destruct s; simpl; split; congruence. Qed.

Lemma supplied_Some (arg : option string) (token : string) :
  supplied arg = Some token ↔ arg = Some token ∧ token ≠ EmptyString.
Proof.
  unfold supplied. destruct arg as [s|]; [|naive_solver].
  destruct s; simpl; naive_solver.
Qed.

Lemma supplied_None (arg : option string) :
  supplied arg = None ↔ arg = None ∨ arg = Some EmptyString.
Proof.
  unfold supplied. destruct arg as [s|]; [|naive_solver].
  destruct s; simpl; naive_solver.
Qed.

Lemma Category_getattr_Some (token : string) (c : Category) :
  Category_getattr token = Some c ↔ Category_name c = token.
Proof.
  unfold Category_getattr. split.
  - intros ([i c'] & Hfind & ->)%fmap_Some.
    by apply list_find_Some in Hfind as (_ & ? & _).
  - intros <-. by destruct c.
Qed.

Lemma Category_getattr_None (token : string) :
  Category_getattr token = None ↔ ∀ c, Category_name c ≠ token.
Proof.
  split.
  - intros Hnone c Hc. apply Category_getattr_Some in Hc. congruence.
  - intros Hall. destruct (Category_getattr token) as [c|] eqn:E; [|done].
    apply Category_getattr_Some in E. by destruct (Hall c).
Qed.

#[global] Instance Category_name_inj : Inj (=) (=) Category_name.
Proof. intros c1 c2 H. by destruct c1, c2. Qed.

Lemma tokens_disjoint (s : string) : s ∈ falsy_tokens → s ∉ truthy_tokens.
Proof.
  unfold falsy_tokens, truthy_tokens.
  rewrite !elem_of_cons, !elem_of_nil. naive_solver.
Qed.

Lemma available_of_token_valid (token : string) :
  lower token ∈ (truthy_tokens ++ falsy_tokens)%list ↔
  is_Some (available_of_token token).
Proof.
  unfold available_of_token. rewrite elem_of_app.
  repeat case_bool_decide; split; intros Hin; eauto.
  - by destruct Hin.
  - by apply is_Some_None in Hin.

Qed.

(** ** The query string *)

Lemma args_get_remove_eq (key : string) (qs : list (string * string)) :
  args_get key (args_remove key qs) = None.
Proof.
  unfold args_remove. induction qs as [|[k v] qs IH]; [done|].
  rewrite filter_cons. simpl. destruct (decide (k = key)) as [->|Hk].
  - by rewrite decide_False by naive_solver.
  - rewrite decide_True by done. simpl. by rewrite decide_False.
Qed.

Lemma args_get_remove_ne (key key' : string) (qs : list (string * string)) :
  key ≠ key' → args_get key' (args_remove key qs) = args_get key' qs.
Proof.
  intros Hne. unfold args_remove. induction qs as [|[k v] qs IH]; [done|].
  rewrite filter_cons. simpl. destruct (decide (k = key)) as [->|Hk].
  - rewrite decide_False by naive_solver.
    rewrite IH. by rewrite decide_False.
  - rewrite decide_True by done. simpl. by rewrite IH.
Qed.

(** ** The persistence gateway *)

Lemma Product_find_Some db (n : Z) p :
  Product_find db n = Some p → p ∈ rows db ∧ id p = Some n.
Proof.
  unfold Product_find. intros ([i p'] & Hfind & ->)%fmap_Some.
  apply list_find_Some in Hfind as (Hl & ? & _).
  split; [|done]. by eapply list_elem_of_lookup_2.
Qed.

Lemma Product_find_None db (n : Z) :
  Product_find db n = None ↔ ∀ p, p ∈ rows db → id p ≠ Some n.
Proof.
  unfold Product_find. rewrite fmap_None, list_find_None, Forall_forall.
  done.
Qed.

Lemma Product_find_is_Some db (n : Z) p :
  p ∈ rows db → id p = Some n → is_Some (Product_find db n).
Proof.
  intros Hin Hid. destruct (Product_find db n) eqn:E; [eauto|].
  rewrite Product_find_None in E. by destruct (E p Hin).
Qed.

(** In a well-formed table an id names one row. *)
Lemma store_wf_unique db p q :
  store_wf db → p ∈ rows db → q ∈ rows db → id p = id q → p = q.
Proof.
  intros [Hnd _] Hp Hq Hid.
  apply list_elem_of_lookup in Hp as [i Hi].
  apply list_elem_of_lookup in Hq as [j Hj].
  assert (i = j) as ->; [|congruence].
  eapply NoDup_lookup; [exact Hnd| |];
    rewrite list_lookup_fmap; [by rewrite Hi|by rewrite Hj, Hid].
Qed.

Lemma Product_find_wf db (n : Z) p :
  store_wf db → p ∈ rows db → id p = Some n → Product_find db n = Some p.
Proof.
  intros Hwf Hin Hid.
  destruct (Product_find_is_Some db n p Hin Hid) as [q Hq].
  rewrite Hq. f_equal.
  apply Product_find_Some in Hq as [Hqin Hqid].
  apply (store_wf_unique db); [done..|congruence].
Qed.

(** ** Narrowing a listing *)

Lemma filter_all {A} (P : A → Prop) `{!∀ x, Decision (P x)} (l : list A) :
  (∀ x, P x) → filter P l = l.
Proof.
  intros HP. induction l as [|x l IH]; [done|].
  by rewrite filter_cons_True, IH.
Qed.

Lemma filter_none {A} (P : A → Prop) `{!∀ x, Decision (P x)} (l : list A) :
  (∀ x, x ∈ l → ¬ P x) → filter P l = [].
Proof.
  intros HP. destruct (filter P l) as [|x k] eqn:E; [done|].
  assert (x ∈ filter P l) as [? ?]%list_elem_of_filter by (rewrite E; left).
  by destruct (HP x).
Qed.

Lemma filter_by_name_matches (arg : option string) (products : list Product) :
  filter_by_name arg products = filter (matches_name arg) products.
Proof.
  destruct (supplied arg) as [n|] eqn:E.
  - apply supplied_Some in E as E'. destruct E' as [-> Hne%str_truthy_true].
    simpl. rewrite Hne. apply list_filter_iff. intros p.
    unfold matches_name. by rewrite E.
  - rewrite filter_all; [|intros p; unfold matches_name; by rewrite E].
    by apply supplied_None in E as [->| ->].
Qed.

Lemma filter_by_category_matches (arg : option string) (products : list Product) :
  (∀ token, supplied arg = Some token → ∃ c, Category_name c = upper token) →
  filter_by_category arg products = Ok (filter (matches_category arg) products).
Proof.
  intros Hvalid. destruct (supplied arg) as [token|] eqn:E.
  - destruct (Hvalid token eq_refl) as [c Hc].
    apply supplied_Some in E as E'. destruct E' as [-> Hne%str_truthy_true].
    apply Category_getattr_Some in Hc. simpl. rewrite Hne, Hc. f_equal.
    apply list_filter_iff. intros p. unfold matches_category.
    rewrite E, Hc. naive_solver.
  - rewrite filter_all; [|intros p; unfold matches_category; by rewrite E].
    by apply supplied_None in E as [->| ->].
Qed.

Lemma filter_by_category_unknown (token : string) (products : list Product) :
  token ≠ EmptyString → (∀ c, Category_name c ≠ upper token) →
  filter_by_category (Some token) products =
  Abort HTTP_400_BAD_REQUEST ("Invalid category: " ++ token).
Proof.
  intros Hne%str_truthy_true Hno%Category_getattr_None. simpl.
  by rewrite Hne, Hno.
Qed.

Lemma filter_by_available_token (token : string) (products : list Product) :
  token ≠ EmptyString →
  filter_by_available (Some token) products =
  match available_of_token token with
  | Some b => Ok (filter (fun p => available p = b) products)
  | None =>
      Abort HTTP_400_BAD_REQUEST ("Invalid value for 'available': " ++ token)
  end.
Proof.
  intros Hne%str_truthy_true. unfold available_of_token. simpl. rewrite Hne.
  by repeat case_bool_decide.
Qed.

Lemma filter_by_available_matches (arg : option string) (products : list Product) :
  (∀ token, supplied arg = Some token →
            lower token ∈ (truthy_tokens ++ falsy_tokens)%list) →
  filter_by_available arg products = Ok (filter (matches_available arg) products).
Proof.
  intros Hvalid. destruct (supplied arg) as [token|] eqn:E.
  - specialize (Hvalid token eq_refl).
    apply available_of_token_valid in Hvalid as [b Hb].
    apply supplied_Some in E as E'. destruct E' as [-> Hne].
    rewrite filter_by_available_token, Hb by done. f_equal.
    apply list_filter_iff. intros p. unfold matches_available.
    rewrite E, Hb. naive_solver.
  - rewrite filter_all; [|intros p; unfold matches_available; by rewrite E].
    by apply supplied_None in E as [->| ->].
Qed.

(** With valid criteria the handler answers with the products that satisfy
    all of them, in store order. *)
Lemma get_products_valid db req :
  category_valid req → available_valid req →
  get_products db req = Ok (listing_response (filter (matches req) (Product_all db))).
Proof.
  intros Hc Ha. unfold get_products.
  rewrite filter_by_name_matches.
  rewrite (filter_by_category_matches _ _ Hc). simpl.
  rewrite (filter_by_available_matches _ _ Ha). simpl.
  do 2 f_equal. rewrite !list_filter_filter.
  apply list_filter_iff. unfold matches. naive_solver.
Qed.

(** ** Deserialization *)

(** A payload is accepted exactly when it is a full valid payload, and the
    entity then carries its values under the id it had. *)
Lemma deserialize_onto_Ok (i : option Z) (data : json) p :
  deserialize_onto i data = Ok p ↔
  id p = i ∧
  full_valid_payload data (name p) (description p) (price p) (available p) (category p).
Proof.
  split.
  - unfold deserialize_onto, full_valid_payload, required, as_text,
      as_boolean, as_decimal, as_category.
    destruct data as [| | | | | |fields]; simpl; try done.
    destruct (fields !! "name") as [[]|] eqn:Hn; simpl; try done.
    destruct (fields !! "description") as [[]|] eqn:Hd; simpl; try done.
    destruct (fields !! "available") as [[]|] eqn:Ha; simpl; try done.
    destruct (fields !! "price") as [pv|] eqn:Hp; simpl; try done.
    destruct (Decimal_new pv) as [d|] eqn:Hpv; simpl; try done.
    destruct (fields !! "category") as [[]|] eqn:Hc; simpl; try done.
    destruct (Category_getattr _) as [c|] eqn:Hg; simpl; try done.
    intros [= <-]. simpl. split; [done|].
    apply Category_getattr_Some in Hg as <-. by exists fields, pv.
  - intros [Hid (fields & pv & -> & Hn & Hd & Hp & Hpv & Ha & Hc)].
    unfold deserialize_onto, required, as_text, as_boolean, as_decimal,
      as_category. simpl.
    rewrite Hn, Hd, Ha, Hp. simpl. rewrite Hpv, Hc. simpl.
    rewrite (proj2 (Category_getattr_Some _ _) eq_refl). simpl.
    destruct p; simpl in *. by subst.
Qed.

(** Deserialization either succeeds or raises the validation error: it never
    aborts and never lets another exception class out. *)
Lemma deserialize_onto_outcome (i : option Z) (data : json) :
  (∃ p, deserialize_onto i data = Ok p) ∨
  (∃ e, deserialize_onto i data = Raise e ∧ exn_cls e = DataValidationError).
Proof.
  unfold deserialize_onto, required, as_text, as_boolean, as_decimal,
    as_category.
  destruct data as [| | | | | |fields]; simpl; eauto.
  destruct (fields !! "name") as [[]|]; simpl; eauto.
  destruct (fields !! "description") as [[]|]; simpl; eauto.
  destruct (fields !! "available") as [[]|]; simpl; eauto.
  destruct (fields !! "price") as [pv|]; simpl; eauto.
  destruct (Decimal_new pv) as [d|]; simpl; eauto.
  destruct (fields !! "category") as [[]|]; simpl; eauto.
  destruct (Category_getattr _) as [c|]; simpl; eauto.
Qed.

Lemma deserialize_onto_rejects (i : option Z) (data : json) :
  (¬ ∃ nm ds pr av cat, full_valid_payload data nm ds pr av cat) →
  ∃ e, deserialize_onto i data = Raise e ∧ exn_cls e = DataValidationError.
Proof.
  intros Hno. destruct (deserialize_onto_outcome i data) as [[p Hp]|]; [|done].
  apply deserialize_onto_Ok in Hp as [_ Hp]. destruct Hno. eauto 10.
Qed.

Lemma omits_required_field_rejected (i : option Z) (data : json) :
  omits_required_field data →
  ∃ e, deserialize_onto i data = Raise e ∧ exn_cls e = DataValidationError.
Proof.
  intros (fields & key & -> & Hkey & Hnone).
  apply deserialize_onto_rejects.
  intros (nm & ds & pr & av & cat & fields' & pv & [= <-] & ? & ? & ? & ? & ? & ?).
  unfold required_fields in Hkey.
  repeat (apply elem_of_cons in Hkey as [->|Hkey]; [congruence|]).
  by apply elem_of_nil in Hkey.
Qed.

Lemma wrong_typed_field_rejected (i : option Z) (data : json) :
  has_wrong_typed_field data →
  ∃ e, deserialize_onto i data = Raise e ∧ exn_cls e = DataValidationError.
Proof.
  intros (fields & key & v & -> & Hv & Hbad).
  apply deserialize_onto_rejects.
  intros (nm & ds & pr & av & cat & fields' & pv & [= <-] & ? & ? & ? & ? & ? & ?).
  unfold is_text, is_boolean in Hbad.
  destruct Hbad as [[-> Hb]|[[-> Hb]|[[-> Hb]|[[-> [_ Hb]]|[-> Hb]]]]];
    simplify_eq; try (destruct Hb; eauto).
Qed.

(** ** The table stays well formed *)

Lemma Product_create_wf p db :
  store_wf db → store_wf (Product_create p db).2.
Proof.
  intros [Hnd Hids]. split; simpl.
  - rewrite fmap_app. apply NoDup_app. split_and!; [done| |apply NoDup_singleton].
    intros i (q & -> & Hq)%list_elem_of_fmap Hin.
    apply list_elem_of_singleton in Hin. simpl in Hin.
    destruct (Hids q Hq) as (n & Hn & Hlt). rewrite Hn in Hin.
    injection Hin as ->. lia.
  - intros q [Hq| ->%list_elem_of_singleton]%elem_of_app.
    + destruct (Hids q Hq) as (n & Hn & Hlt). exists n. split; [done|lia].
    + exists (next_id db). simpl. split; [done|lia].
Qed.

Lemma Product_update_wf p db :
  store_wf db → store_wf (Product_update p db).
Proof.
  intros [Hnd Hids].
  assert (Hsame : id <$> rows (Product_update p db) = id <$> rows db).
  { simpl. rewrite <- list_fmap_compose. apply list_fmap_ext.
    intros ? q _. simpl. by case_decide. }
  split; [by rewrite Hsame|]. simpl.
  intros q' (q & -> & Hq)%list_elem_of_fmap.
  destruct (Hids q Hq) as (n & Hn & Hlt). exists n.
  case_decide; [split; [congruence|done]|done].
Qed.

Lemma Product_delete_wf p db :
  store_wf db → store_wf (Product_delete p db).
Proof.
  intros [Hnd Hids]. split; simpl.
  - revert Hnd. generalize (rows db). intros l.
    induction l as [|q l IH]; [done|].
    rewrite fmap_cons, NoDup_cons, filter_cons. intros [Hq Hl].
    case_decide; [|by apply IH].
    rewrite fmap_cons, NoDup_cons. split; [|by apply IH].
    intros (q' & Hid & Hq')%list_elem_of_fmap.
    apply list_elem_of_filter in Hq' as [_ Hq'].
    apply Hq. rewrite Hid. by apply list_elem_of_fmap_2.
  - intros q [_ Hq]%list_elem_of_filter. by apply Hids.
Qed.

(** The freshly created row is the one its id resolves to. *)
Lemma Product_find_create p db :
  store_wf db →
  Product_find (Product_create p db).2 (next_id db) =
  Some (Product_create p db).1.2.
Proof.
  intros [_ Hids]. unfold Product_find. simpl.
  set (stored := mk_product _ _ _ _ _ _).
  assert (Hnone : list_find (fun q => id q = Some (next_id db)) (rows db) = None).
  { apply list_find_None, Forall_forall. intros q Hq Hid.
    destruct (Hids q Hq) as (n & Hn & Hlt). rewrite Hn in Hid.
    injection Hid as ->. lia. }
  apply fmap_Some. exists (List.length (rows db), stored). split; [|done].
  apply list_find_app_Some. right. split_and!; [lia|done|].
  rewrite Nat.sub_diag. simpl. by rewrite decide_True.
Qed.

(** ** The handlers, step by step *)

Lemma filter_by_category_outcome (arg : option string) (products : list Product) :
  (∃ narrowed, filter_by_category arg products = Ok narrowed) ∨
  (∃ text, filter_by_category arg products = Abort HTTP_400_BAD_REQUEST text).
Proof.
  unfold filter_by_category. destruct arg as [token|]; [|eauto].
  destruct (str_truthy token); [|eauto].
  destruct (Category_getattr (upper token)); eauto.
Qed.

Lemma check_content_type_json req :
  content_type_header req = Some "application/json" →
  check_content_type req "application/json" = Ok ().
Proof. intros H. unfold check_content_type. by rewrite H, decide_True. Qed.

Lemma check_content_type_other req :
  content_type_header req ≠ Some "application/json" →
  check_content_type req "application/json" =
  Abort HTTP_415_UNSUPPORTED_MEDIA_TYPE "Content-Type must be application/json".
Proof.
  intros H. unfold check_content_type.
  destruct (content_type_header req) as [given|]; [|done].
  rewrite decide_False; [done|congruence].
Qed.

(** A validation error raised by [deserialize] is not one of the classes the
    [except] clauses of [update_product] name: it escapes the handler. *)
Lemma try_deserialize_validation_error found (data : json) (e : exn) :
  Product_deserialize found data = Raise e →
  exn_cls e = DataValidationError →
  try_deserialize found data = Raise e.
Proof. intros He Hcls. unfold try_deserialize. by rewrite He, Hcls. Qed.

Lemma try_deserialize_Ok found (data : json) p :
  Product_deserialize found data = Ok p → try_deserialize found data = Ok p.
Proof. intros Hp. unfold try_deserialize. by rewrite Hp. Qed.

(** The [except] clauses themselves read [error.message]: on an exception
    object without that attribute the clause raises instead of aborting. *)
Lemma abort_with_message_missing (error : exn) :
  exn_message error = None →
  ∃ e, abort_with_message error = Raise e ∧ exn_cls e = AttributeError.
Proof. intros H. unfold abort_with_message. rewrite H. eauto. Qed.

Lemma create_products_accepted db req (data : json) p :
  content_type_header req = Some "application/json" →
  json_body req = Some data →
  Product_new_deserialize data = Ok p →
  create_products db req =
  (Ok {| status := HTTP_201_CREATED;
         body := BJson (Product_serialize (Product_create p db).1.2);
         headers := [("Location", url_for_get_product req (next_id db))] |},
   (Product_create p db).2).
Proof.
  intros Hct Hbody Hp. unfold create_products, get_json.
  rewrite (check_content_type_json _ Hct), Hbody, !bind_Ok. by rewrite Hp.
Qed.

Lemma update_product_rejected db req (product_id : Z) found (data : json) (e : exn) :
  Product_find db product_id = Some found →
  content_type_header req = Some "application/json" →
  json_body req = Some data →
  Product_deserialize found data = Raise e →
  exn_cls e = DataValidationError →
  update_product db req product_id = (Raise e, db).
Proof.
  intros Hfind Hct Hbody He Hcls. unfold update_product, get_json.
  rewrite Hfind, (check_content_type_json _ Hct), Hbody. simpl.
  by rewrite (try_deserialize_validation_error _ _ _ He Hcls).
Qed.

Lemma update_product_accepted db req (product_id : Z) found (data : json) p :
  Product_find db product_id = Some found →
  content_type_header req = Some "application/json" →
  json_body req = Some data →
  Product_deserialize found data = Ok p →
  update_product db req product_id =
  (Ok {| status := HTTP_200_OK; body := BJson (Product_serialize p);
         headers := [] |}, Product_update p db).
Proof.
  intros Hfind Hct Hbody Hp. unfold update_product, get_json.
  rewrite Hfind, (check_content_type_json _ Hct), Hbody. simpl.
  by rewrite (try_deserialize_Ok _ _ _ Hp).
Qed.

(** ** The contract of the endpoints *)

(** C1. PUT /products/{id} on an existing product, with the JSON content
    type and a body that omits a required field or carries a wrong-typed
    one, is answered with status 400 (not 500, not 200), and the stored
    product is left as it was. *)
Theorem update_product_invalid_payload_400 db req (product_id : Z) found (data : json) :
  Product_find db product_id = Some found →
  content_type_header req = Some "application/json" →
  json_body req = Some data →
  omits_required_field data ∨ has_wrong_typed_field data ∨
    (∃ e, Product_deserialize found data = Raise e) →
  status_code (update_product db req product_id).1 = 400 ∧
  (update_product db req product_id).2 = db.
Proof.
  intros Hfind Hct Hbody Hbad.
  assert (∃ e, Product_deserialize found data = Raise e ∧
               exn_cls e = DataValidationError) as (e & He & Hcls).
  { destruct Hbad as [Homit|[Htype|[e He]]];
      [by apply omits_required_field_rejected
      |by apply wrong_typed_field_rejected|].
    destruct (deserialize_onto_outcome (id found) data)
      as [[p Hp]|(e' & He' & Hcls)]; unfold Product_deserialize in He;
      [congruence|]. exists e'. by split. }
  rewrite (update_product_rejected db req product_id found data e) by done.
  simpl. by rewrite Hcls.
Qed.

(** C2. GET /products with a non-empty [available] parameter: a token that
    lowercases to one of "true", "t", "1", "yes" narrows the listing to the
    products with available = true; one of "false", "f", "0", "no" narrows
    it to available = false; every other token is answered with status
    400.  The narrowed listing is the one the other two criteria leave,
    when the category, if supplied, names a member. *)
Theorem get_products_available_token db req (token : string) :
  args_get "available" (args req) = Some token →
  token ≠ EmptyString →
  (lower token ∈ ["true"; "t"; "1"; "yes"] →
   (∀ t, supplied (args_get "category" (args req)) = Some t →
         ∃ c, Category_name c = upper t) →
   get_products db req =
   Ok {| status := 200;
         body := BJson (JArr (Product_serialize <$>
                   filter (fun p => available p = true ∧
                                    matches_name (args_get "name" (args req)) p ∧
                                    matches_category (args_get "category" (args req)) p)
                          (Product_all db)));
         headers := [] |}) ∧
  (lower token ∈ ["false"; "f"; "0"; "no"] →
   (∀ t, supplied (args_get "category" (args req)) = Some t →
         ∃ c, Category_name c = upper t) →
   get_products db req =
   Ok {| status := 200;
         body := BJson (JArr (Product_serialize <$>
                   filter (fun p => available p = false ∧
                                    matches_name (args_get "name" (args req)) p ∧
                                    matches_category (args_get "category" (args req)) p)
                          (Product_all db)));
         headers := [] |}) ∧
  (lower token ∉ ["true"; "t"; "1"; "yes"; "false"; "f"; "0"; "no"] →
   status_code (get_products db req) = 400).
Proof.
  intros Harg Hne.
  assert (Hsup : supplied (args_get "available" (args req)) = Some token).
  { by apply supplied_Some. }
  assert (Hnarrow : ∀ b, available_of_token token = Some b →
            category_valid req →
            get_products db req =
            Ok {| status := 200;
                  body := BJson (JArr (Product_serialize <$>
                    filter (fun p => available p = b ∧
                              matches_name (args_get "name" (args req)) p ∧
                              matches_category (args_get "category" (args req)) p)
                           (Product_all db)));
                  headers := [] |}).
  { intros b Hb Hc. rewrite get_products_valid; [|done|].
    - rewrite (list_filter_iff (matches req)
                 (fun p => available p = b ∧
                    matches_name (args_get "name" (args req)) p ∧
                    matches_category (args_get "category" (args req)) p));
        [done|].
      intros p. unfold matches, matches_available. rewrite Hsup, Hb.
      naive_solver.
    - intros t Ht. rewrite Hsup in Ht. injection Ht as <-.
      apply available_of_token_valid. by rewrite Hb. }
  split_and!.
  - intros Hin Hc. apply Hnarrow; [|done]. unfold available_of_token.
    by rewrite bool_decide_eq_true_2.
  - intros Hin Hc. apply Hnarrow; [|done]. unfold available_of_token.
    by rewrite bool_decide_eq_false_2, bool_decide_eq_true_2
      by auto using tokens_disjoint.
  - intros Hout.
    assert (Ht : lower token ∉ truthy_tokens).
    { intros Hin. apply Hout.
      change (lower token ∈ (truthy_tokens ++ falsy_tokens)%list).
      apply elem_of_app. by left. }
    assert (Hf : lower token ∉ falsy_tokens).
    { intros Hin. apply Hout.
      change (lower token ∈ (truthy_tokens ++ falsy_tokens)%list).
      apply elem_of_app. by right. }
    unfold get_products. rewrite Harg.
    destruct (filter_by_category_outcome (args_get "category" (args req))
                (filter_by_name (args_get "name" (args req)) (Product_all db)))
      as [[narrowed ->]|[text ->]]; [|done]. rewrite bind_Ok.
    rewrite filter_by_available_token by done. unfold available_of_token.
    by rewrite !bool_decide_eq_false_2.
Qed.

(** C3. GET /products with a non-empty [category] parameter: the token is
    upper-cased before the lookup; when the upper-cased token names a member
    of the enumeration the listing is narrowed to the products of that
    category (among those the other two criteria leave, when the
    availability token, if supplied, is a recognised one), and when it names
    none the answer is status 400, never an empty listing. *)
Theorem get_products_category_token db req (token : string) :
  args_get "category" (args req) = Some token →
  token ≠ EmptyString →
  (∀ c, Category_name c = upper token →
     (∀ t, supplied (args_get "available" (args req)) = Some t →
           lower t ∈ ["true"; "t"; "1"; "yes"; "false"; "f"; "0"; "no"]) →
     get_products db req =
     Ok {| status := 200;
           body := BJson (JArr (Product_serialize <$>
                     filter (fun p => category p = c)
                       (filter (fun p =>
                                  matches_name (args_get "name" (args req)) p ∧
                                  matches_available (args_get "available" (args req)) p)
                               (Product_all db))));
           headers := [] |}) ∧
  ((∀ c, Category_name c ≠ upper token) →
     get_products db req =
     Abort 400 ("Invalid category: " ++ token)).
Proof.
  intros Harg Hne. split.
  - intros c Hc Ha.
    assert (Hsup : supplied (args_get "category" (args req)) = Some token).
    { by apply supplied_Some. }
    rewrite get_products_valid; [|intros t Ht; exists c; congruence|exact Ha].
    rewrite list_filter_filter.
    rewrite (list_filter_iff (matches req)
               (fun p => category p = c ∧
                  matches_name (args_get "name" (args req)) p ∧
                  matches_available (args_get "available" (args req)) p));
      [done|].
    intros p. unfold matches, matches_category. rewrite Hsup.
    rewrite Category_getattr_Some, <- Hc. split.
    + intros (? & Heq%(inj Category_name) & ?). by subst.
    + intros (-> & ? & ?). done.
  - intros Hno. unfold get_products. rewrite Harg.
    by rewrite filter_by_category_unknown.
Qed.

(** C4. GET /products with any subset of [name], [category], [available]
    supplied with valid non-empty values is answered with status 200 and
    the serialization of exactly the products of the full listing that
    satisfy every supplied criterion at once, in the order of the listing;
    the name is compared by equality of the whole text. *)
Theorem get_products_conjunction db req :
  (∀ t, supplied (args_get "category" (args req)) = Some t →
        ∃ c, Category_name c = upper t) →
  (∀ t, supplied (args_get "available" (args req)) = Some t →
        lower t ∈ ["true"; "t"; "1"; "yes"; "false"; "f"; "0"; "no"]) →
  get_products db req =
  Ok {| status := 200;
        body := BJson (JArr (Product_serialize <$>
                  filter (matches req) (Product_all db)));
        headers := [] |} ∧
  ∀ p, matches req p ↔
    (∀ n, supplied (args_get "name" (args req)) = Some n → name p = n) ∧
    (∀ t, supplied (args_get "category" (args req)) = Some t →
          Category_name (category p) = upper t) ∧
    (∀ t, supplied (args_get "available" (args req)) = Some t →
          (lower t ∈ ["true"; "t"; "1"; "yes"] ∧ available p = true) ∨
          (lower t ∈ ["false"; "f"; "0"; "no"] ∧ available p = false)).
Proof.
  intros Hc Ha. split; [by apply get_products_valid|].
  intros p. unfold matches, matches_name, matches_category, matches_available.
  assert (Htok : ∀ t b, available_of_token t = Some b ↔
            (lower t ∈ ["true"; "t"; "1"; "yes"] ∧ b = true) ∨
            (lower t ∈ ["false"; "f"; "0"; "no"] ∧ b = false)).
  { intros t b. unfold available_of_token.
    pose proof (tokens_disjoint (lower t)) as Hdis.
    unfold truthy_tokens, falsy_tokens in *.
    repeat case_bool_decide; naive_solver. }
  destruct (supplied (args_get "name" (args req))) as [n|];
    destruct (supplied (args_get "category" (args req))) as [tc|];
    destruct (supplied (args_get "available" (args req))) as [ta|];
    rewrite ?Category_getattr_Some, ?Htok; naive_solver.
Qed.

(** C5. GET /products without query parameters is answered with status 200
    and the serialization of every stored product; and when valid criteria
    match no product the answer is status 200 with an empty sequence, not an
    error. *)
Theorem get_products_all_or_empty db req :
  (args_get "name" (args req) = None →
   args_get "category" (args req) = None →
   args_get "available" (args req) = None →
   get_products db req =
   Ok {| status := 200;
         body := BJson (JArr (Product_serialize <$> Product_all db));
         headers := [] |}) ∧
  (category_valid req → available_valid req →
   (∀ p, p ∈ Product_all db → ¬ matches req p) →
   get_products db req =
   Ok {| status := 200; body := BJson (JArr []); headers := [] |}).
Proof.
  split.
  - intros Hn Hc Ha. unfold get_products. by rewrite Hn, Hc, Ha.
  - intros Hc Ha Hnone. rewrite get_products_valid by done.
    by rewrite filter_none.
Qed.

(** C6. POST /products whose Content-Type header is missing or differs from
    application/json is answered with status 415 and creates nothing; with
    application/json and a valid payload it is answered with status 201, the
    serialized entity, and a Location header that points to the read
    endpoint of the new entity. *)
Theorem create_products_content_type db req :
  (content_type_header req ≠ Some "application/json" →
   status_code (create_products db req).1 = 415 ∧
   (create_products db req).2 = db) ∧
  (∀ (data : json) nm ds pr av cat,
     content_type_header req = Some "application/json" →
     json_body req = Some data →
     full_valid_payload data nm ds pr av cat →
     let new_id := next_id db in
     let stored := {| id := Some new_id; name := nm; description := ds;
                      price := pr; available := av; category := cat |} in
     (create_products db req).1 =
       Ok {| status := 201; body := BJson (Product_serialize stored);
             headers := [("Location", url_for_get_product req new_id)] |} ∧
     rows (create_products db req).2 = (rows db ++ [stored])%list ∧
     (store_wf db →
      get_product (create_products db req).2 new_id =
        Ok {| status := 200; body := BJson (Product_serialize stored);
              headers := [] |})).
Proof.
  split.
  - intros Hct. unfold create_products.
    by rewrite (check_content_type_other _ Hct).
  - intros data nm ds pr av cat Hct Hbody Hvalid new_id stored.
    set (fresh := {| id := None; name := nm; description := ds; price := pr;
                     available := av; category := cat |}).
    assert (Hp : Product_new_deserialize data = Ok fresh).
    { apply deserialize_onto_Ok. by split. }
    rewrite (create_products_accepted db req data fresh) by done.
    split_and!; [done..|]. intros Hwf.
    subst new_id. cbn [snd]. unfold get_product.
    by rewrite (Product_find_create fresh db Hwf).
Qed.

(** C7. GET /products/{id}: when a product with that id exists the answer
    is status 200 with the serialization of that product; when none exists
    the answer is status 404. *)
Theorem get_product_found_or_404 db (product_id : Z) :
  (∀ p, p ∈ rows db → id p = Some product_id →
     ∃ found, found ∈ rows db ∧ id found = Some product_id ∧
       (store_wf db → found = p) ∧
       get_product db product_id =
       Ok {| status := 200; body := BJson (Product_serialize found);
             headers := [] |}) ∧
  ((∀ p, p ∈ rows db → id p ≠ Some product_id) →
     status_code (get_product db product_id) = 404).
Proof.
  split.
  - intros p Hin Hid.
    destruct (Product_find_is_Some db product_id p Hin Hid) as [found Hfound].
    exists found. unfold get_product. rewrite Hfound.
    apply Product_find_Some in Hfound as [Hfin Hfid].
    split_and!; [done..| |done].
    intros Hwf. apply (store_wf_unique db); [done..|congruence].
  - intros Hnone%Product_find_None. unfold get_product. by rewrite Hnone.
Qed.

(** C8. DELETE /products/{id}: when no product has that id the answer is
    status 404; otherwise the product is removed, the answer is status 204
    with an empty body, and a GET of the same id that follows is answered
    with status 404. *)
Theorem delete_product_then_get db (product_id : Z) :
  ((∀ p, p ∈ rows db → id p ≠ Some product_id) →
     status_code (delete_product db product_id).1 = 404 ∧
     (delete_product db product_id).2 = db) ∧
  (∀ p, p ∈ rows db → id p = Some product_id →
     (delete_product db product_id).1 =
       Ok {| status := 204; body := BText EmptyString; headers := [] |} ∧
     rows (delete_product db product_id).2 =
       filter (fun q => id q ≠ Some product_id) (rows db) ∧
     status_code (get_product (delete_product db product_id).2 product_id) = 404).
Proof.
  split.
  - intros Hnone%Product_find_None. unfold delete_product. by rewrite Hnone.
  - intros p Hin Hid.
    destruct (Product_find_is_Some db product_id p Hin Hid) as [found Hfound].
    unfold delete_product. rewrite Hfound. cbn [fst snd].
    apply Product_find_Some in Hfound as [_ Hfid].
    assert (Hrows : rows (Product_delete found db) =
                    filter (fun q => id q ≠ Some product_id) (rows db)).
    { simpl. apply list_filter_iff. intros q. by rewrite Hfid. }
    split_and!; [done..|].
    assert (Hgone : Product_find (Product_delete found db) product_id = None).
    { apply Product_find_None. intros q. rewrite Hrows.
      by intros [? _]%list_elem_of_filter. }
    unfold get_product. by rewrite Hgone.
Qed.

(** C9. PUT /products/{id} on an existing id, with the JSON content type
    and a full valid payload, is answered with status 200 and the serialized
    entity, whose id is the original id while every other field has the
    value of the payload; and the not-found check comes before the
    content-type check: an unknown id is answered with status 404 whatever
    the Content-Type. *)
Theorem update_product_keeps_id db req (product_id : Z) :
  (∀ found (data : json) nm ds pr av cat,
     Product_find db product_id = Some found →
     content_type_header req = Some "application/json" →
     json_body req = Some data →
     full_valid_payload data nm ds pr av cat →
     let updated := {| id := Some product_id; name := nm; description := ds;
                       price := pr; available := av; category := cat |} in
     (update_product db req product_id).1 =
       Ok {| status := 200; body := BJson (Product_serialize updated);
             headers := [] |} ∧
     (update_product db req product_id).2 = Product_update updated db) ∧
  (Product_find db product_id = None →
     status_code (update_product db req product_id).1 = 404 ∧
     (update_product db req product_id).2 = db).
Proof.
  split.
  - intros found data nm ds pr av cat Hfind Hct Hbody Hvalid updated.
    assert (Hid : id found = Some product_id).
    { by apply Product_find_Some in Hfind as [_ ?]. }
    assert (Hp : Product_deserialize found data = Ok updated).
    { apply deserialize_onto_Ok. by split. }
    by rewrite (update_product_accepted db req product_id found data updated).
  - intros Hnone. unfold update_product. by rewrite Hnone.
Qed.

(** C10. GET /products in which [name], [category] or [available] is
    supplied with the empty string treats that parameter as absent: the
    answer is the one the request gets without the parameter, so nothing is
    narrowed or validated for it. *)
Theorem get_products_empty_value_is_absent db req (key : string) :
  key ∈ ["name"; "category"; "available"] →
  args_get key (args req) = Some EmptyString →
  get_products db req =
  get_products db (with_args req (args_remove key (args req))).
Proof.
  intros Hkey Hempty. unfold get_products, with_args. cbn [args].
  repeat (apply elem_of_cons in Hkey as [->|Hkey]);
    [| | |by apply elem_of_nil in Hkey];
    rewrite Hempty, args_get_remove_eq, !args_get_remove_ne by done;
    cbn [filter_by_name filter_by_category filter_by_available str_truthy];
    done.
Qed.

End ProductServiceFacts.

(** * The contract on concrete requests

    Each property above, run on the sample table with the reference
    instance of the decimal module. *)

Lemma update_product_invalid_payload_400_witness :
  Product_find sample_db 1 = Some fedora ∧
  omits_required_field payload_without_name ∧
  status_code (update_product sample_db (json_request payload_without_name) 1).1 = 400 ∧
  (update_product sample_db (json_request payload_without_name) 1).2 = sample_db.
Proof.
  assert (Hfind : Product_find sample_db 1 = Some fedora) by reflexivity.
  assert (Homit : omits_required_field payload_without_name).
  { eexists _, "name". split_and!; [reflexivity|by constructor|].
    vm_compute. reflexivity. }
  split_and!; [done..| |];
    apply (update_product_invalid_payload_400 sample_db
             (json_request payload_without_name) 1 fedora payload_without_name);
    try reflexivity; by left.
Defined.

Lemma get_products_available_token_witness :
  args_get "available" [("available", "Yes")] = Some "Yes" ∧
  lower "Yes" ∈ ["true"; "t"; "1"; "yes"] ∧
  get_products sample_db (query_request [("available", "Yes")]) =
  Ok {| status := 200; body := BJson (JArr [Product_serialize fedora]);
        headers := [] |}.
Proof.
  assert (Hin : lower "Yes" ∈ ["true"; "t"; "1"; "yes"]).
  { apply (bool_decide_unpack _). vm_compute. exact I. }
  split_and!; [reflexivity|done|].
  destruct (get_products_available_token sample_db
              (query_request [("available", "Yes")]) "Yes")
    as (Htrue & _ & _); [reflexivity|discriminate|].
  rewrite Htrue; [reflexivity|exact Hin|].
  intros t [=].
Defined.

Lemma get_products_category_token_witness :
  args_get "category" [("category", "tools")] = Some "tools" ∧
  Category_name TOOLS = upper "tools" ∧
  get_products sample_db (query_request [("category", "tools")]) =
    Ok {| status := 200; body := BJson (JArr [Product_serialize hammer]);
          headers := [] |} ∧
  get_products sample_db (query_request [("category", "toolſ")]) =
    Ok {| status := 200; body := BJson (JArr [Product_serialize hammer]);
          headers := [] |} ∧
  get_products sample_db (query_request [("category", "NONEXISTENT")]) =
    Abort 400 "Invalid category: NONEXISTENT".
Proof.
  split_and!; [reflexivity..| | |].
  - destruct (get_products_category_token sample_db
                (query_request [("category", "tools")]) "tools")
      as [Hmember _]; [reflexivity|discriminate|].
    rewrite (Hmember TOOLS); [reflexivity..|].
    intros t [=].
  - destruct (get_products_category_token sample_db
                (query_request [("category", "toolſ")]) "toolſ")
      as [Hmember _]; [reflexivity|discriminate|].
    rewrite (Hmember TOOLS); [reflexivity..|].
    intros t [=].
  - apply (get_products_category_token sample_db
             (query_request [("category", "NONEXISTENT")]) "NONEXISTENT");
      [reflexivity|discriminate|].
    intros c. by destruct c.
Defined.

Lemma get_products_conjunction_witness :
  get_products sample_db
    (query_request [("name", "Hammer"); ("category", "Tools");
                    ("available", "F")]) =
  Ok {| status := 200; body := BJson (JArr [Product_serialize hammer]);
        headers := [] |}.
Proof.
  destruct (get_products_conjunction sample_db
              (query_request [("name", "Hammer"); ("category", "Tools");
                              ("available", "F")]))
    as [-> _]; [| |reflexivity].
  - intros t [= <-]. by exists TOOLS.
  - intros t [= <-]. apply (bool_decide_unpack _). vm_compute. exact I.
Defined.

Lemma get_products_all_or_empty_witness :
  get_products sample_db (query_request []) =
  Ok {| status := 200;
        body := BJson (JArr [Product_serialize fedora; Product_serialize hammer]);
        headers := [] |} ∧
  get_products sample_db (query_request [("category", "food")]) =
  Ok {| status := 200; body := BJson (JArr []); headers := [] |}.
Proof.
  split.
  - by apply (get_products_all_or_empty sample_db (query_request [])).
  - apply (get_products_all_or_empty sample_db
             (query_request [("category", "food")])).
    + intros token [= <-]. by exists FOOD.
    + intros token [=].
    + intros p Hp (_ & Hcat & _).
      apply elem_of_cons in Hp as [->|Hp]; [discriminate Hcat|].
      apply elem_of_cons in Hp as [->|Hp]; [discriminate Hcat|].
      by apply elem_of_nil in Hp.
Defined.

Lemma sample_db_wf : store_wf sample_db.
Proof.
  split.
  - apply (bool_decide_unpack _). vm_compute. exact I.
  - intros p Hp.
    apply elem_of_cons in Hp as [->|Hp]; [exists 1; by split|].
    apply elem_of_cons in Hp as [->|Hp]; [exists 2; by split|].
    by apply elem_of_nil in Hp.
Defined.

Lemma sample_payload_valid :
  full_valid_payload sample_payload "Trilby" "A narrow brim" "20.00" false CLOTHS.
Proof.
  eexists _, (JStr "20.00").
  split_and!; [reflexivity|vm_compute; reflexivity..].
Defined.

Lemma create_products_content_type_witness :
  status_code (create_products sample_db (query_request [])).1 = 415 ∧
  (create_products sample_db (query_request [])).2 = sample_db ∧
  store_wf sample_db ∧
  (create_products sample_db (json_request sample_payload)).1 =
    Ok {| status := 201; body := BJson (Product_serialize (trilby 3));
          headers := [("Location", "http://localhost/products/3")] |} ∧
  get_product (create_products sample_db (json_request sample_payload)).2 3 =
    Ok {| status := 200; body := BJson (Product_serialize (trilby 3));
          headers := [] |}.
Proof.
  destruct (create_products_content_type sample_db (query_request []))
    as [[H415 Hsame] _]; [discriminate|].
  destruct (create_products_content_type sample_db (json_request sample_payload))
    as [_ Hcreated].
  destruct (Hcreated sample_payload "Trilby" "A narrow brim" "20.00" false CLOTHS
              eq_refl eq_refl sample_payload_valid)
    as (H201 & _ & Hget).
  split_and!; [exact H415|exact Hsame|exact sample_db_wf|exact H201|].
  exact (Hget sample_db_wf).
Defined.

Lemma get_product_found_or_404_witness :
  get_product sample_db 2 =
    Ok {| status := 200; body := BJson (Product_serialize hammer);
          headers := [] |} ∧
  status_code (get_product sample_db 5000) = 404.
Proof.
  split.
  - destruct (get_product_found_or_404 sample_db 2) as [Hknown _].
    destruct (Hknown hammer) as (found & _ & _ & Hsame & Hget);
      [by do 2 constructor|reflexivity|].
    by rewrite <- (Hsame sample_db_wf).
  - apply (get_product_found_or_404 sample_db 5000).
    intros p Hp.
    apply elem_of_cons in Hp as [->|Hp]; [discriminate|].
    apply elem_of_cons in Hp as [->|Hp]; [discriminate|].
    by apply elem_of_nil in Hp.
Defined.

Lemma delete_product_then_get_witness :
  status_code (delete_product sample_db 1000).1 = 404 ∧
  (delete_product sample_db 1).1 =
    Ok {| status := 204; body := BText EmptyString; headers := [] |} ∧
  rows (delete_product sample_db 1).2 = [hammer] ∧
  status_code (get_product (delete_product sample_db 1).2 1) = 404.
Proof.
  destruct (delete_product_then_get sample_db 1000) as [Hunknown _].
  destruct (delete_product_then_get sample_db 1) as [_ Hknown].
  destruct (Hknown fedora) as (H204 & Hrows & Hget);
    [by constructor|reflexivity|].
  split_and!; [|exact H204|exact Hrows|exact Hget].
  apply Hunknown. intros p Hp.
  apply elem_of_cons in Hp as [->|Hp]; [discriminate|].
  apply elem_of_cons in Hp as [->|Hp]; [discriminate|].
  by apply elem_of_nil in Hp.
Defined.

Lemma update_product_keeps_id_witness :
  (update_product sample_db (json_request sample_payload) 2).1 =
    Ok {| status := 200; body := BJson (Product_serialize (trilby 2));
          headers := [] |} ∧
  rows (update_product sample_db (json_request sample_payload) 2).2 =
    [fedora; trilby 2] ∧
  status_code (update_product sample_db (query_request []) 1000).1 = 404.
Proof.
  destruct (update_product_keeps_id sample_db (json_request sample_payload) 2)
    as [Hknown _].
  destruct (Hknown hammer sample_payload "Trilby" "A narrow brim" "20.00" false
              CLOTHS eq_refl eq_refl eq_refl sample_payload_valid)
    as [H200 Hstore].
  destruct (update_product_keeps_id sample_db (query_request []) 1000)
    as [_ Hunknown].
  split_and!; [exact H200|by rewrite Hstore|by apply Hunknown].
Defined.

Lemma get_products_empty_value_is_absent_witness :
  args_get "available" [("available", EmptyString); ("name", "Fedora")] =
    Some EmptyString ∧
  get_products sample_db
    (query_request [("available", EmptyString); ("name", "Fedora")]) =
  get_products sample_db (query_request [("name", "Fedora")]).
Proof.
  split; [reflexivity|].
  apply (get_products_empty_value_is_absent sample_db
           (query_request [("available", EmptyString); ("name", "Fedora")])
           "available"); [by do 3 constructor|reflexivity].
Defined.

(** * Further properties of the handlers *)

Section ProductServiceMore.

Context `{DM : DecimalModule}.

Implicit Types (db : Store) (req : Request) (p q : Product).

(** ** Outcomes of the filter blocks *)

Lemma filter_by_available_outcome (arg : option string) (products : list Product) :
  (∃ narrowed, filter_by_available arg products = Ok narrowed) ∨
  (∃ text, filter_by_available arg products = Abort HTTP_400_BAD_REQUEST text).
Proof.
  unfold filter_by_available. destruct arg as [token|]; [|eauto].
  destruct (str_truthy token); [|eauto].
  repeat case_bool_decide; eauto.
Qed.

Lemma filter_by_category_Ok_valid (arg : option string) (products narrowed : list Product) :
  filter_by_category arg products = Ok narrowed →
  ∀ token, supplied arg = Some token → ∃ c, Category_name c = upper token.
Proof.
  intros Hok token [-> Hne%str_truthy_true]%supplied_Some.
  simpl in Hok. rewrite Hne in Hok.
  destruct (Category_getattr (upper token)) as [c|] eqn:E; [|done].
  exists c. by apply Category_getattr_Some.
Qed.

Lemma filter_by_available_Ok_valid (arg : option string) (products narrowed : list Product) :
  filter_by_available arg products = Ok narrowed →
  ∀ token, supplied arg = Some token →
           lower token ∈ (truthy_tokens ++ falsy_tokens)%list.
Proof.
  intros Hok token [-> Hne]%supplied_Some.
  rewrite filter_by_available_token in Hok by done.
  apply available_of_token_valid.
  by destruct (available_of_token token).
Qed.

(** X1. The listing endpoint answers with status 200 or 400 and nothing
    else, whatever the table and the query string. *)
Theorem get_products_status_200_or_400 db req :
  status_code (get_products db req) = 200 ∨
  status_code (get_products db req) = 400.
Proof.
  unfold get_products.
  destruct (filter_by_category_outcome (args_get "category" (args req))
              (filter_by_name (args_get "name" (args req)) (Product_all db)))
    as [[narrowed ->]|[text ->]]; [|by right].
  rewrite bind_Ok.
  destruct (filter_by_available_outcome (args_get "available" (args req)) narrowed)
    as [[narrowed' ->]|[text ->]]; [by left|by right].
Qed.

(** X2. The listing endpoint answers 200 exactly when the supplied category
    names a member and the supplied availability token is a recognised one:
    whether a query is accepted does not depend on the stored products. *)
Theorem get_products_accepts_iff_valid db req :
  status_code (get_products db req) = 200 ↔
  (∀ t, supplied (args_get "category" (args req)) = Some t →
        ∃ c, Category_name c = upper t) ∧
  (∀ t, supplied (args_get "available" (args req)) = Some t →
        lower t ∈ ["true"; "t"; "1"; "yes"; "false"; "f"; "0"; "no"]).
Proof.
  split.
  - unfold get_products.
    destruct (filter_by_category_outcome (args_get "category" (args req))
                (filter_by_name (args_get "name" (args req)) (Product_all db)))
      as [[narrowed Hc]|[text Hc]]; rewrite Hc;
      [rewrite bind_Ok|rewrite bind_Abort; intros [=]].
    destruct (filter_by_available_outcome
                (args_get "available" (args req)) narrowed)
      as [[narrowed' Ha]|[text Ha]]; rewrite Ha;
      [rewrite bind_Ok|rewrite bind_Abort; intros [=]].
    intros _. split.
    + by apply (filter_by_category_Ok_valid _ _ _ Hc).
    + by apply (filter_by_available_Ok_valid _ _ _ Ha).
  - intros [Hc Ha]. by rewrite get_products_valid.
Qed.



(** ** Letter case of the tokens *)

Lemma utf8_upper_2_truthy (c1 c2 : ascii) (converted : string) :
  utf8_upper_2 c1 c2 = Some converted → str_truthy converted = true.
Proof.
  unfold utf8_upper_2. repeat case_decide; by intros [= <-].
Qed.

Lemma utf8_upper_3_truthy (c1 c2 c3 : ascii) (converted : string) :
  utf8_upper_3 c1 c2 c3 = Some converted → str_truthy converted = true.
Proof.
  unfold utf8_upper_3. repeat case_decide; by intros [= <-].
Qed.

Lemma utf8_lower_3_truthy (c1 c2 c3 : ascii) (converted : string) :
  utf8_lower_3 c1 c2 c3 = Some converted → str_truthy converted = true.
Proof.
  unfold utf8_lower_3. case_decide; by intros [= <-].
Qed.

Lemma append_truthy (s t : string) :
  str_truthy s = true → str_truthy (s ++ t) = true.
Proof. by destruct s. Qed.

(** Case conversion keeps a text empty or non-empty. *)
Lemma upper_truthy (s : string) : str_truthy (upper s) = str_truthy s.
Proof.
  destruct s as [|c1 [|c2 s2]]; [done..|]. cbn [upper].
  destruct (utf8_upper_2 c1 c2) as [converted|] eqn:E2.
  { by apply append_truthy, (utf8_upper_2_truthy c1 c2). }
  destruct s2 as [|c3 s3]; [done|].
  destruct (utf8_upper_3 c1 c2 c3) as [converted|] eqn:E3; [|done].
  by apply append_truthy, (utf8_upper_3_truthy c1 c2 c3).
Qed.

Lemma lower_truthy (s : string) : str_truthy (lower s) = str_truthy s.
Proof.
  destruct s as [|c1 [|c2 [|c3 s3]]]; [done..|]. cbn [lower].
  destruct (utf8_lower_3 c1 c2 c3) as [converted|] eqn:E3; [|done].
  by apply append_truthy, (utf8_lower_3_truthy c1 c2 c3).
Qed.

Lemma same_upper_truthy (s t : string) :
  same_upper s t → str_truthy s = str_truthy t.
Proof.
  unfold same_upper. intros H.
  by rewrite <- (upper_truthy s), <- (upper_truthy t), H.
Qed.

Lemma same_lower_truthy (s t : string) :
  same_lower s t → str_truthy s = str_truthy t.
Proof.
  unfold same_lower. intros H.
  by rewrite <- (lower_truthy s), <- (lower_truthy t), H.
Qed.

Lemma filter_by_category_case (arg arg' : option string) (products : list Product) :
  option_Forall2 same_upper arg arg' →
  filter_by_category arg products = filter_by_category arg' products ∨
  ∃ text text',
    filter_by_category arg products = Abort HTTP_400_BAD_REQUEST text ∧
    filter_by_category arg' products = Abort HTTP_400_BAD_REQUEST text'.
Proof.
  destruct 1 as [s t Hst|]; [|by left]. simpl.
  rewrite (same_upper_truthy s t Hst). unfold same_upper in Hst. rewrite Hst.
  destruct (str_truthy t); [|by left].
  destruct (Category_getattr (upper t)); [by left|right; eauto].
Qed.

Lemma filter_by_available_case (arg arg' : option string) (products : list Product) :
  option_Forall2 same_lower arg arg' →
  filter_by_available arg products = filter_by_available arg' products ∨
  ∃ text text',
    filter_by_available arg products = Abort HTTP_400_BAD_REQUEST text ∧
    filter_by_available arg' products = Abort HTTP_400_BAD_REQUEST text'.
Proof.
  destruct 1 as [s t Hst|]; [|by left]. simpl.
  rewrite (same_lower_truthy s t Hst). unfold same_lower in Hst. rewrite Hst.
  destruct (str_truthy t); [|by left].
  repeat case_bool_decide; [by left..|right; eauto].
Qed.

(** X4. The letter case of the [category] and [available] tokens does not
    matter: two queries that differ in it only get the same status, and the
    same listing when they are accepted. *)
Theorem get_products_case_insensitive db req req' :
  args_get "name" (args req) = args_get "name" (args req') →
  option_Forall2 same_upper
    (args_get "category" (args req)) (args_get "category" (args req')) →
  option_Forall2 same_lower
    (args_get "available" (args req)) (args_get "available" (args req')) →
  status_code (get_products db req) = status_code (get_products db req') ∧
  (∀ resp, get_products db req = Ok resp → get_products db req' = Ok resp).
Proof.
  intros Hn Hc Ha. unfold get_products. rewrite <- Hn.
  destruct (filter_by_category_case _ _
              (filter_by_name (args_get "name" (args req)) (Product_all db)) Hc)
    as [<-|(text & text' & -> & ->)]; [|done].
  destruct (filter_by_category _ _) as [narrowed| |]; [|done..].
  rewrite !bind_Ok.
  destruct (filter_by_available_case _ _ narrowed Ha)
    as [<-|(text & text' & -> & ->)]; done.
Qed.

(** ** Media type *)

(** X5. The media type check passes exactly when the Content-Type header is
    present and equal, character for character, to the expected type; in
    every other case it aborts with 415 and names the expected type. *)
Theorem check_content_type_exact req (content_type : string) :
  (check_content_type req content_type = Ok () ↔
   content_type_header req = Some content_type) ∧
  (content_type_header req ≠ Some content_type →
   check_content_type req content_type =
   Abort 415 ("Content-Type must be " ++ content_type)).
Proof.
  unfold check_content_type.
  destruct (content_type_header req) as [given|]; [|by split].
  case_decide; [subst; by split|]. split; [|done].
  split; [done|congruence].
Qed.

(** X6. A request that is not answered with the success status of its
    endpoint leaves the table exactly as it was. *)
Theorem failed_request_keeps_store db req (product_id : Z) :
  (status_code (create_products db req).1 ≠ 201 →
   (create_products db req).2 = db) ∧
  (status_code (update_product db req product_id).1 ≠ 200 →
   (update_product db req product_id).2 = db) ∧
  (status_code (delete_product db product_id).1 ≠ 204 →
   (delete_product db product_id).2 = db).
Proof.
  split_and!.
  - unfold create_products.
    by destruct (check_content_type req "application/json" ≫= _).
  - unfold update_product.
    destruct (Product_find db product_id); [|done].
    by destruct (check_content_type req "application/json" ≫= _).
  - unfold delete_product. by destruct (Product_find db product_id).
Qed.

(** X7. PUT on an existing product with a missing or different Content-Type
    is answered with 415 before the body is looked at, and the product is
    left as it was. *)
Theorem update_product_media_type_415 db req (product_id : Z) found :
  Product_find db product_id = Some found →
  content_type_header req ≠ Some "application/json" →
  status_code (update_product db req product_id).1 = 415 ∧
  (update_product db req product_id).2 = db.
Proof.
  intros Hfind Hct. unfold update_product.
  by rewrite Hfind, (check_content_type_other _ Hct).
Qed.

(** X8. The [except] clauses of the update handler answer 400 only for an
    exception object that carries a [message] attribute; for one of the
    three classes without it the request ends as a server error instead. *)
Theorem except_clauses_need_message (error : exn) found (data : json) :
  try_deserialize found data = except_clauses (Product_deserialize found data) ∧
  (exn_cls error ≠ DataValidationError →
   ∀ k : Product → result Response,
     status_code (except_clauses (Raise error) ≫= k) =
     match exn_message error with Some _ => 400 | None => 500 end).
Proof.
  split.
  - unfold try_deserialize, except_clauses.
    by destruct (Product_deserialize found data).
  - intros Hcls k. unfold except_clauses, abort_with_message.
    by destruct (exn_cls error), (exn_message error).
Qed.

(** ** Adding a criterion *)

Lemma args_get_cons (k key value : string) (qs : list (string * string)) :
  args_get k ((key, value) :: qs) =
  if decide (key = k) then Some value else args_get k qs.
Proof. done. Qed.

(** X9. Adding a criterion that was not given before can only narrow the
    answer: the new listing is a sub-sequence of the old one, products in
    the same order. *)
Theorem get_products_narrows db req (key value : string) :
  args_get key (args req) = None →
  category_valid (with_args req ((key, value) :: args req)) →
  available_valid (with_args req ((key, value) :: args req)) →
  ∃ wide narrow,
    get_products db req = Ok (listing_response wide) ∧
    get_products db (with_args req ((key, value) :: args req)) =
      Ok (listing_response narrow) ∧
    narrow `sublist_of` wide.
Proof.
  intros Habsent Hc Ha.
  set (req' := with_args req ((key, value) :: args req)) in *.
  assert (Hsame : ∀ k, k ≠ key → args_get k (args req') = args_get k (args req)).
  { intros k Hk. unfold req'. cbn [with_args args].
    rewrite args_get_cons. by rewrite decide_False. }
  assert (Hsup : ∀ k token, supplied (args_get k (args req)) = Some token →
            supplied (args_get k (args req')) = Some token).
  { intros k token Hk. destruct (decide (k = key)) as [->|Hne].
    - by rewrite Habsent in Hk.
    - by rewrite Hsame. }
  assert (Hc' : category_valid req) by (intros token Ht; apply Hc; eauto).
  assert (Ha' : available_valid req) by (intros token Ht; apply Ha; eauto).
  exists (filter (matches req) (Product_all db)),
         (filter (matches req') (Product_all db)).
  rewrite !get_products_valid by done. split_and!; [done..|].
  rewrite <- (list_filter_filter_l (matches req') (matches req)).
  - apply sublist_filter.
  - intros p (Hn & Hcat & Hav).
    unfold matches, matches_name, matches_category, matches_available in *.
    split_and!.
    + destruct (supplied (args_get "name" (args req))) eqn:E; [|done].
      by rewrite (Hsup _ _ E) in Hn.
    + destruct (supplied (args_get "category" (args req))) eqn:E; [|done].
      by rewrite (Hsup _ _ E) in Hcat.
    + destruct (supplied (args_get "available" (args req))) eqn:E; [|done].
      by rewrite (Hsup _ _ E) in Hav.
Qed.

(** ** Reading after writing *)

Lemma list_find_snd_cons {A} (P : A → Prop) `{!∀ x, Decision (P x)} (x : A) (l : list A) :
  snd <$> list_find P (x :: l) =
  if decide (P x) then Some x else snd <$> list_find P l.
Proof. csimpl. case_decide; [done|]. by destruct (list_find P l) as [[? ?]|]. Qed.

Lemma Product_find_update p db (m : Z) :
  Product_find (Product_update p db) m =
  (fun q => if decide (id q = id p) then p else q) <$> Product_find db m.
Proof.
  unfold Product_find. simpl. induction (rows db) as [|x l IH]; [done|].
  rewrite fmap_cons, !list_find_snd_cons, IH.
  destruct (decide (id x = id p)) as [Hx|Hx].
  - rewrite <- Hx. destruct (decide (id x = Some m)); [|done].
    simpl. by rewrite decide_True.
  - destruct (decide (id x = Some m)); [|done].
    simpl. by rewrite decide_False.
Qed.

Lemma Product_find_delete_other p db (m : Z) :
  id p ≠ Some m →
  Product_find (Product_delete p db) m = Product_find db m.
Proof.
  intros Hne. unfold Product_find. simpl.
  induction (rows db) as [|x l IH]; [done|].
  rewrite filter_cons, list_find_snd_cons.
  destruct (decide (id x ≠ id p)) as [Hx|Hx].
  - by rewrite list_find_snd_cons, IH.
  - rewrite IH. apply dec_stable in Hx.
    rewrite decide_False; [done|congruence].
Qed.

Lemma Product_find_create_existing p db (m : Z) :
  is_Some (Product_find db m) →
  Product_find (Product_create p db).2 m = Product_find db m.
Proof.
  unfold Product_find. simpl. induction (rows db) as [|x l IH].
  - by intros [? ?].
  - rewrite <- app_comm_cons, !list_find_snd_cons.
    by destruct (decide (id x = Some m)).
Qed.

(** X10. After a successful update a GET of the same id returns the updated
    entity, and every other id is answered as before. *)
Theorem update_product_then_get db req (product_id : Z) found (data : json)
    nm ds pr av cat :
  Product_find db product_id = Some found →
  content_type_header req = Some "application/json" →
  json_body req = Some data →
  full_valid_payload data nm ds pr av cat →
  let db' := (update_product db req product_id).2 in
  get_product db' product_id =
    Ok {| status := 200;
          body := BJson (Product_serialize
                           {| id := Some product_id; name := nm;
                              description := ds; price := pr;
                              available := av; category := cat |});
          headers := [] |} ∧
  ∀ other, other ≠ product_id → get_product db' other = get_product db other.
Proof.
  intros Hfind Hct Hbody Hvalid db'.
  set (updated := mk_product (Some product_id) nm ds pr av cat).
  assert (Hid : id found = Some product_id).
  { by apply Product_find_Some in Hfind as [_ ?]. }
  assert (Hp : Product_deserialize found data = Ok updated).
  { apply deserialize_onto_Ok. by split. }
  assert (Hdb : db' = Product_update updated db).
  { unfold db'.
    by rewrite (update_product_accepted db req product_id found data updated). }
  rewrite Hdb. unfold get_product. split.
  - rewrite Product_find_update, Hfind. simpl.
    by rewrite decide_True by (by rewrite Hid).
  - intros other Hother. rewrite Product_find_update.
    destruct (Product_find db other) as [q|] eqn:Hq; [|done].
    apply Product_find_Some in Hq as [_ Hqid]. simpl.
    rewrite decide_False; [done|]. simpl. congruence.
Qed.

(** X11. Deleting a product does not touch the others: every other id is
    answered as before the DELETE. *)
Theorem delete_product_keeps_others db (product_id other : Z) :
  other ≠ product_id →
  get_product (delete_product db product_id).2 other = get_product db other.
Proof.
  intros Hother. unfold delete_product, get_product.
  destruct (Product_find db product_id) as [found|] eqn:Hfind; [|done].
  apply Product_find_Some in Hfind as [_ Hid]. cbn [snd].
  rewrite Product_find_delete_other; [done|congruence].
Qed.

(** X12. A second DELETE of the same id is answered with 404 and changes
    nothing more. *)
Theorem delete_product_twice db (product_id : Z) :
  let db' := (delete_product db product_id).2 in
  status_code (delete_product db' product_id).1 = 404 ∧
  (delete_product db' product_id).2 = db'.
Proof.
  intros db'.
  assert (Hgone : Product_find db' product_id = None).
  { unfold db', delete_product.
    destruct (Product_find db product_id) as [found|] eqn:Hfind; [|done].
    cbn [snd]. apply Product_find_Some in Hfind as [_ Hid].
    apply Product_find_None. intros q [Hq _]%list_elem_of_filter. congruence. }
  unfold delete_product. by rewrite Hgone.
Qed.

(** X13. Creating a product does not touch the stored ones: every id that
    resolved before the POST is answered as before. *)
Theorem create_products_keeps_existing db req (product_id : Z) :
  is_Some (Product_find db product_id) →
  get_product (create_products db req).2 product_id = get_product db product_id.
Proof.
  intros Hsome. unfold create_products, get_product.
  destruct (check_content_type req "application/json" ≫= _)
    as [p| |]; [|done..].
  by rewrite <- (Product_find_create_existing p db product_id Hsome).
Qed.

(** X14. Every handler keeps the table well formed: the ids stay pairwise
    distinct and below the key sequence, whatever the request. *)
Theorem handlers_keep_store_wf db req (product_id : Z) :
  store_wf db →
  store_wf (create_products db req).2 ∧
  store_wf (update_product db req product_id).2 ∧
  store_wf (delete_product db product_id).2.
Proof.
  intros Hwf. split_and!.
  - unfold create_products.
    destruct (check_content_type req "application/json" ≫= _)
      as [p| |]; [|done..].
    by apply (Product_create_wf p db).
  - unfold update_product.
    destruct (Product_find db product_id) as [found|]; [|done].
    destruct (check_content_type req "application/json" ≫= _)
      as [updated| |]; [|done..].
    by apply Product_update_wf.
  - unfold delete_product.
    destruct (Product_find db product_id) as [found|]; [|done].
    by apply Product_delete_wf.
Qed.

(** ** The text of the availability error *)

(** X18. When the category is acceptable and the availability token is not
    a recognised one, the 400 answer quotes the token as it was typed, not
    its lower-case form. *)
Theorem get_products_invalid_available_message db req (token : string) :
  args_get "available" (args req) = Some token →
  token ≠ EmptyString →
  lower token ∉ truthy_tokens → lower token ∉ falsy_tokens →
  category_valid req →
  get_products db req =
  Abort 400 ("Invalid value for 'available': " ++ token).
Proof.
  intros Harg Hne Ht Hf Hc. unfold get_products.
  rewrite (filter_by_category_matches _ _ Hc), bind_Ok, Harg.
  rewrite filter_by_available_token by done. unfold available_of_token.
  by rewrite !bool_decide_eq_false_2.
Qed.

(** ** Status codes *)


(** ** Posting a serialization back *)

Lemma deserialize_serialize (i : option Z) p :
  decimal_round_trip → deserialize_onto i (Product_serialize p) = Ok (with_id i p).
Proof.
  intros Hrt. apply deserialize_onto_Ok. split; [done|].
  eexists _, (JStr (Decimal_str (price p))).
  split_and!; first [reflexivity|apply Hrt].
Qed.

Lemma client_post_serialization db p :
  decimal_round_trip →
  client_post db (Product_serialize p) =
  (Ok {| status := 201;
         body := BJson (Product_serialize (with_id (Some (next_id db)) p));
         headers := [("Location",
                      url_for_get_product (json_request (Product_serialize p))
                                          (next_id db))] |},
   {| rows := rows db ++ [with_id (Some (next_id db)) p];
      next_id := next_id db + 1 |}).
Proof.
  intros Hrt. unfold client_post.
  by rewrite (create_products_accepted db _ (Product_serialize p) (with_id None p))
    by (try done; by apply deserialize_serialize).
Qed.

(** X16. Posting the serialization of a product creates a product with the
    same name, description, price, availability and category under the next
    id (an [id] in the payload is not used), and a GET of that id returns
    the body of the 201 answer. *)
Theorem create_products_from_serialization db p :
  decimal_round_trip →
  let stored := with_id (Some (next_id db)) p in
  (client_post db (Product_serialize p)).1 =
    Ok {| status := 201; body := BJson (Product_serialize stored);
          headers := [("Location",
                       url_for_get_product (json_request (Product_serialize p))
                                           (next_id db))] |} ∧
  (client_post db (Product_serialize p)).2 =
    {| rows := rows db ++ [stored]; next_id := next_id db + 1 |} ∧
  (store_wf db →
   get_product (client_post db (Product_serialize p)).2 (next_id db) =
     Ok {| status := 200; body := BJson (Product_serialize stored);
           headers := [] |}).
Proof.
  intros Hrt stored. rewrite (client_post_serialization db p Hrt).
  split_and!; [done..|]. intros Hwf. subst stored. cbn [snd].
  change (mk_store (rows db ++ [with_id (Some (next_id db)) p]) (next_id db + 1))
    with (Product_create (with_id None p) db).2.
  unfold get_product. by rewrite (Product_find_create (with_id None p) db Hwf).
Qed.

(** ** The helpers of the test suite *)

Lemma serialized_id_field (a b c d e f : json) :
  (list_to_map [("id", a); ("name", b); ("description", c); ("price", d);
                ("available", e); ("category", f)] : gmap string json)
    !! "id" = Some a.
Proof. reflexivity. Qed.

Lemma get_product_count_length db :
  get_product_count db = Some (List.length (rows db)).
Proof.
  unfold get_product_count, get_products. simpl.
  by rewrite length_fmap.
Qed.

(** X17. The bulk helper of the route tests never trips its assertion: it
    creates one product per factory product, in order, with consecutive ids
    from the key sequence, and the count helper then reports that many
    more products. *)
Theorem create_products_helper_creates_all (factory : list Product) db :
  decimal_round_trip →
  let products :=
    imap (fun i p => with_id (Some (next_id db + Z.of_nat i)) p) factory in
  let db' := {| rows := rows db ++ products;
                next_id := next_id db + Z.of_nat (List.length factory) |} in
  _create_products db factory = Some (products, db') ∧
  get_product_count db' =
    Some (List.length (rows db) + List.length factory)%nat.
Proof.
  intros Hrt products db'. split.
  - subst products db'. revert db.
    induction factory as [|p factory IH]; intros db.
    + simpl. rewrite app_nil_r, Z.add_0_r. by destruct db.
    + cbn [_create_products].
      rewrite (client_post_serialization db p Hrt).
      rewrite decide_True by reflexivity.
      unfold response_json. cbn [body mbind option_bind].
      unfold Product_serialize at 1. cbn [json_fields mbind option_bind].
      rewrite serialized_id_field.
      cbn [id with_id from_option id_of_json mbind option_bind].
      rewrite IH. cbn [next_id rows imap mbind option_bind].
      assert (Hshift :
        imap (fun i q => with_id (Some (next_id db + 1 + Z.of_nat i)) q) factory =
        imap ((fun i q => with_id (Some (next_id db + Z.of_nat i)) q) ∘ S) factory).
      { apply imap_ext. intros i q _. simpl. do 2 f_equal. lia. }
      rewrite Hshift, <- app_assoc. simpl. rewrite Z.add_0_r.
      do 3 f_equal. lia.
  - rewrite get_product_count_length. subst db' products. simpl.
    by rewrite length_app, length_imap.
Qed.

End ProductServiceMore.

(** * The further properties on concrete requests *)

Lemma text_decimal_round_trip : decimal_round_trip.
Proof. intros d. reflexivity. Defined.


Lemma get_products_case_insensitive_witness :
  same_upper "tools" "TOOLS" ∧ same_lower "NO" "no" ∧
  get_products sample_db
    (query_request [("category", "TOOLS"); ("available", "no")]) =
  Ok (listing_response [hammer]).
Proof.
  split_and!; [reflexivity..|].
  destruct (get_products_case_insensitive sample_db
              (query_request [("category", "tools"); ("available", "NO")])
              (query_request [("category", "TOOLS"); ("available", "no")]))
    as [_ Hsame]; [reflexivity|by constructor..|].
  by apply Hsame.
Defined.

Lemma check_content_type_exact_witness :
  check_content_type (json_request JNull) "application/json" = Ok () ∧
  check_content_type (query_request []) "application/json" =
    Abort 415 "Content-Type must be application/json".
Proof.
  split.
  - by apply (check_content_type_exact (json_request JNull) "application/json").
  - by apply (check_content_type_exact (query_request []) "application/json").
Defined.

Lemma failed_request_keeps_store_witness :
  (create_products sample_db (json_request payload_without_name)).2 = sample_db ∧
  (update_product sample_db (json_request payload_without_name) 1).2 = sample_db ∧
  (delete_product sample_db 1000).2 = sample_db.
Proof.
  destruct (failed_request_keeps_store sample_db
              (json_request payload_without_name) 1) as (Hcreate & Hupdate & _).
  destruct (failed_request_keeps_store sample_db (query_request []) 1000)
    as (_ & _ & Hdelete).
  split_and!; [apply Hcreate|apply Hupdate|apply Hdelete]; discriminate.
Defined.

Lemma update_product_media_type_415_witness :
  Product_find sample_db 1 = Some fedora ∧
  status_code (update_product sample_db (query_request []) 1).1 = 415 ∧
  (update_product sample_db (query_request []) 1).2 = sample_db.
Proof.
  split; [reflexivity|].
  by apply (update_product_media_type_415 sample_db (query_request []) 1 fedora).
Defined.

Lemma except_clauses_need_message_witness :
  status_code
    (except_clauses
       (Raise {| exn_cls := KeyError; exn_text := "name"; exn_message := None |})
     ≫= fun p => Ok (listing_response [p])) = 500.
Proof.
  by apply (except_clauses_need_message
              {| exn_cls := KeyError; exn_text := "name"; exn_message := None |}
              fedora sample_payload).
Defined.

Lemma get_products_narrows_witness :
  ∃ wide narrow,
    get_products sample_db (query_request [("category", "cloths")]) =
      Ok (listing_response wide) ∧
    get_products sample_db
      (query_request [("available", "false"); ("category", "cloths")]) =
      Ok (listing_response narrow) ∧
    narrow `sublist_of` wide.
Proof.
  apply (get_products_narrows sample_db (query_request [("category", "cloths")])
           "available" "false").
  - reflexivity.
  - intros token [= <-]. by exists CLOTHS.
  - intros token [= <-]. apply (bool_decide_unpack _). vm_compute. exact I.
Defined.

Lemma update_product_then_get_witness :
  get_product (update_product sample_db (json_request sample_payload) 2).2 2 =
    Ok {| status := 200; body := BJson (Product_serialize (trilby 2));
          headers := [] |} ∧
  get_product (update_product sample_db (json_request sample_payload) 2).2 1 =
    get_product sample_db 1.
Proof.
  destruct (update_product_then_get sample_db (json_request sample_payload) 2
              hammer sample_payload "Trilby" "A narrow brim" "20.00" false CLOTHS
              eq_refl eq_refl eq_refl sample_payload_valid) as [Hsame Hother].
  split; [exact Hsame|]. by apply Hother.
Defined.

Lemma delete_product_keeps_others_witness :
  get_product (delete_product sample_db 1).2 2 = get_product sample_db 2.
Proof. by apply (delete_product_keeps_others sample_db 1 2). Defined.

Lemma create_products_keeps_existing_witness :
  get_product (create_products sample_db (json_request sample_payload)).2 1 =
  get_product sample_db 1.
Proof.
  apply (create_products_keeps_existing sample_db (json_request sample_payload) 1).
  by eexists.
Defined.

Lemma handlers_keep_store_wf_witness :
  store_wf (create_products sample_db (json_request sample_payload)).2 ∧
  store_wf (update_product sample_db (json_request sample_payload) 2).2 ∧
  store_wf (delete_product sample_db 1).2.
Proof.
  destruct (handlers_keep_store_wf sample_db (json_request sample_payload) 2
              sample_db_wf) as (Hcreate & Hupdate & _).
  destruct (handlers_keep_store_wf sample_db (json_request sample_payload) 1
              sample_db_wf) as (_ & _ & Hdelete).
  by split_and!.
Defined.

Lemma create_products_from_serialization_witness :
  (client_post sample_db (Product_serialize hammer)).1 =
    Ok {| status := 201; body := BJson (Product_serialize (with_id (Some 3) hammer));
          headers := [("Location", "http://localhost/products/3")] |} ∧
  get_product (client_post sample_db (Product_serialize hammer)).2 3 =
    Ok {| status := 200; body := BJson (Product_serialize (with_id (Some 3) hammer));
          headers := [] |}.
Proof.
  destruct (create_products_from_serialization sample_db hammer
              text_decimal_round_trip) as (Hresp & _ & Hget).
  split; [exact Hresp|exact (Hget sample_db_wf)].
Defined.

Lemma create_products_helper_creates_all_witness :
  _create_products {| rows := []; next_id := 7 |} [fedora; hammer] =
    Some ([with_id (Some 7) fedora; with_id (Some 8) hammer],
          {| rows := [with_id (Some 7) fedora; with_id (Some 8) hammer];
             next_id := 9 |}) ∧
  get_product_count
    {| rows := [with_id (Some 7) fedora; with_id (Some 8) hammer];
       next_id := 9 |} = Some 2%nat.
Proof.
  exact (create_products_helper_creates_all [fedora; hammer]
           {| rows := []; next_id := 7 |} text_decimal_round_trip).
Defined.

Lemma get_products_invalid_available_message_witness :
  args_get "available" [("available", "Maybe")] = Some "Maybe" ∧
  get_products sample_db (query_request [("available", "Maybe")]) =
  Abort 400 "Invalid value for 'available': Maybe".
Proof.
  split; [reflexivity|].
  apply (get_products_invalid_available_message sample_db
           (query_request [("available", "Maybe")]) "Maybe").
  - reflexivity.
  - discriminate.
  - apply (bool_decide_unpack _). vm_compute. exact I.
  - apply (bool_decide_unpack _). vm_compute. exact I.
  - intros token [=].
Defined.
